(** * clrescue: the CloudApp export client (src/clrescue/client.py)

    A shallow embedding of [Drop] and [CloudAppClient]: the metadata
    normaliser ([_process], [_apply]), construction by slug, the paginated
    enumeration ([Drop.__class_getitem__]) and persistence ([Drop.save]);
    and of the export loop that drives them ([main] of
    src/clrescue/__main__.py).

    Conventions.
    - A Python [str] is a Rocq [string]; characters are taken below code
      point 256, so the only decimal digits are [0-9].  File contents are
      byte strings, also [string].
    - JSON numbers are integers ([Z]); the service's identifiers, counters
      and lengths are.
    - A Python [dict] is an association list in insertion order whose keys
      are pairwise distinct (what [json()] builds).
    - An instance's attributes are its [__dict__], a [gmap string value].
    - Exceptions are values of [exn]; code that may raise returns [exc],
      code that also acts on the local machine is an [io] computation.
    - The HTTP session is a function from URLs to responses: a request is
      always answered and its body decodes.  The generator of the
      enumeration is run with one unit of fuel per page.
    - Library functions whose result the program only passes on ([dumps],
      [plist], [mktime], [str]), what [requests] takes for the URL of a
      content link ([is_url]) and the size the system reports for a
      directory ([dir_size]) are parameters, gathered in [library].
    - The machine holds files only; a directory is there when it is the
      working directory, an ancestor of it, or an ancestor of a file.  The
      path of a file has no [..] part.
    - The progress bar of the export loop only displays: its calls neither
      fail nor act on the machine. *)

From Stdlib Require Import ZArith List String Ascii Bool Lia.
From stdpp Require Import gmap strings pretty list fin_maps.

Set Warnings "-register-all".
Local Open Scope string_scope.
Local Open Scope Z_scope.
Local Open Scope list_scope.

(** ** Python values *)

Record datetime := mk_datetime {
  year : Z; month : Z; day : Z; hour : Z; minute : Z; second : Z
}.

Inductive value :=
| VNone
| VBool (b : bool)
| VInt (n : Z)
| VStr (s : string)
| VDatetime (d : datetime)
| VList (l : list value)
| VDict (d : list (string * value)).

(** The [ValueError]s of the program, told apart by what raises them. *)
Inductive value_error :=
| Received (status_code : Z)           (* Drop.__init__: "Received {status_code} attempting to retrieve drop metadata." *)
| StrptimeError (data format : string) (* datetime.strptime(data, format) *)
| EmptyName                            (* PurePath.with_suffix on a path without a name *)
| NoURL.                               (* requests: MissingSchema, InvalidSchema or InvalidURL *)

Inductive exn :=
| ValueError (e : value_error)
| KeyError (key : string)
| TypeError
| AttributeError
| OSError.

Inductive exc (A : Type) :=
| Ok (a : A)
| Raise (e : exn).
Arguments Ok {A} a.
Arguments Raise {A} e.

(** The exception monad, with stdpp's notation [x ← r; k]. *)
#[global] Instance exc_ret : MRet exc := fun A a => Ok a.
#[global] Instance exc_bind : MBind exc := fun A B k r =>
  match r with
  | Ok a => k a
  | Raise e => Raise e
  end.

(** [except ValueError] *)
Definition is_ValueError (e : exn) : bool :=
  match e with
  | ValueError _ => true
  | _ => false
  end.

(** Truth value of an object, as tested by [if], [while], [and]. *)
Definition truthy (v : value) : bool :=
  match v with
  | VNone => false
  | VBool b => b
  | VInt n => negb (n =? 0)
  | VStr s => negb (String.eqb s "")
  | VDatetime _ => true
  | VList l => match l with [] => false | _ => true end
  | VDict d => match d with [] => false | _ => true end
  end.

Definition is_None (v : value) : bool :=
  match v with
  | VNone => true
  | _ => false
  end.

(** [d.get(k)] on the entries of a dict. *)
Fixpoint dict_get (d : list (string * value)) (k : string) : option value :=
  match d with
  | [] => None
  | (k', v) :: d' => if String.eqb k' k then Some v else dict_get d' k
  end.

(** [v.get(k, default)]: only a dict has [get]. *)
Definition py_get (v : value) (k : string) (default : value) : exc value :=
  match v with
  | VDict d => Ok (match dict_get d k with Some x => x | None => default end)
  | _ => Raise AttributeError
  end.

(** [v[k]] for a string key [k]. *)
Definition py_getitem (v : value) (k : string) : exc value :=
  match v with
  | VDict d => match dict_get d k with Some x => Ok x | None => Raise (KeyError k) end
  | _ => Raise TypeError
  end.

(** [for x in v]: the elements of a list, the characters of a string, the
    keys of a dict. *)
Definition py_iter (v : value) : exc (list value) :=
  match v with
  | VList l => Ok l
  | VStr s => Ok (map (fun c => VStr (String c "")) (list_ascii_of_string s))
  | VDict d => Ok (map (fun kv => VStr (fst kv)) d)
  | _ => Raise TypeError
  end.

(** ** str methods used by the normaliser *)

(** [s.rstrip(c)] for a one-character set: every trailing [c] goes. *)
Fixpoint rstrip (c : ascii) (s : string) : string :=
  match s with
  | "" => ""
  | String a t =>
      let t' := rstrip c t in
      if String.eqb t' "" && Ascii.eqb a c then "" else String a t'
  end.

(** [s.endswith(suffix)] *)
Definition endswith (s suffix : string) : bool :=
  (String.length suffix <=? String.length s)%nat &&
  String.eqb (substring (String.length s - String.length suffix)
                        (String.length suffix) s) suffix.

(** ** datetime.strptime

    CPython builds a regular expression from the format (_strptime.TimeRE),
    matches it at the start of the data with IGNORECASE, rejects left-over
    data, converts the groups with [int] and builds the [datetime], which
    checks the ranges.  Every failure is a [ValueError]. *)

Inductive re :=
| Chr (p : ascii -> bool)
| Seq (a b : re)
| Alt (a b : re).

(** The matches of [r] at the start of [s] as (matched text, rest), in the
    order in which a backtracking matcher finds them. *)
Fixpoint re_match (r : re) (s : string) : list (string * string) :=
  match r with
  | Chr p =>
      match s with
      | String c t => if p c then [(String c "", t)] else []
      | "" => []
      end
  | Seq a b =>
      flat_map (fun m1 => map (fun m2 => (String.append (fst m1) (fst m2), snd m2))
                              (re_match b (snd m1)))
               (re_match a s)
  | Alt a b => re_match a s ++ re_match b s
  end.

Definition between (lo hi c : ascii) : bool :=
  (nat_of_ascii lo <=? nat_of_ascii c)%nat && (nat_of_ascii c <=? nat_of_ascii hi)%nat.

Definition ch (c : ascii) : re := Chr (Ascii.eqb c).
Definition rng (lo hi : ascii) : re := Chr (between lo hi).
Definition digit : re := rng "0" "9".

(** The directive table of TimeRE, for the directives the program uses. *)
Definition directive (d : ascii) : option re :=
  if Ascii.eqb d "Y" then Some (Seq digit (Seq digit (Seq digit digit)))
  else if Ascii.eqb d "m" then
    Some (Alt (Seq (ch "1") (rng "0" "2")) (Alt (Seq (ch "0") (rng "1" "9")) (rng "1" "9")))
  else if Ascii.eqb d "d" then
    Some (Alt (Seq (ch "3") (rng "0" "1"))
         (Alt (Seq (rng "1" "2") digit)
         (Alt (Seq (ch "0") (rng "1" "9"))
         (Alt (rng "1" "9") (Seq (ch " ") (rng "1" "9"))))))
  else if Ascii.eqb d "H" then
    Some (Alt (Seq (ch "2") (rng "0" "3")) (Alt (Seq (rng "0" "1") digit) digit))
  else if Ascii.eqb d "M" then Some (Alt (Seq (rng "0" "5") digit) digit)
  else if Ascii.eqb d "S" then
    Some (Alt (Seq (ch "6") (rng "0" "1")) (Alt (Seq (rng "0" "5") digit) digit))
  else None.

Inductive item :=
| Group (name : ascii) (r : re)
| Lit (c : ascii).

(** TimeRE.pattern: a directive becomes its named group, any other
    character stands for itself.  [None] for a directive outside the table
    or a stray [%]. *)
Fixpoint pattern (format : string) : option (list item) :=
  match format with
  | "" => Some []
  | String "%" "" => None
  | String "%" (String d rest) =>
      match directive d, pattern rest with
      | Some r, Some p => Some (Group d r :: p)
      | _, _ => None
      end
  | String c rest =>
      match pattern rest with
      | Some p => Some (Lit c :: p)
      | None => None
      end
  end.

Definition lower (c : ascii) : ascii :=
  if between "A" "Z" c then ascii_of_nat (nat_of_ascii c + 32) else c.

Fixpoint pat_match (p : list item) (s : string)
  : list (list (ascii * string) * string) :=
  match p with
  | [] => [([], s)]
  | Lit c :: p' =>
      match s with
      | String a t => if Ascii.eqb (lower a) (lower c) then pat_match p' t else []
      | "" => []
      end
  | Group n r :: p' =>
      flat_map (fun m => map (fun g => ((n, fst m) :: fst g, snd g))
                             (pat_match p' (snd m)))
               (re_match r s)
  end.

(** [int(s)] on a group: decimal digits after optional blanks. *)
Fixpoint int_digits (acc : Z) (s : string) : Z :=
  match s with
  | "" => acc
  | String c t =>
      if Ascii.eqb c " " then int_digits acc t
      else int_digits (10 * acc + (Z.of_nat (nat_of_ascii c) - 48)) t
  end.

Fixpoint group (n : ascii) (gs : list (ascii * string)) : option string :=
  match gs with
  | [] => None
  | (n', m) :: gs' => if Ascii.eqb n' n then Some m else group n gs'
  end.

Definition is_leap (y : Z) : bool :=
  (y mod 4 =? 0) && (negb (y mod 100 =? 0) || (y mod 400 =? 0)).

Definition days_in_month (y m : Z) : Z :=
  if m =? 2 then (if is_leap y then 29 else 28)
  else if (m =? 4) || (m =? 6) || (m =? 9) || (m =? 11) then 30
  else 31.

(** The range checks of the [date] and [datetime] constructors. *)
Definition valid_datetime (d : datetime) : bool :=
  (1 <=? year d) && (year d <=? 9999) &&
  (1 <=? month d) && (month d <=? 12) &&
  (1 <=? day d) && (day d <=? days_in_month (year d) (month d)) &&
  (0 <=? hour d) && (hour d <=? 23) &&
  (0 <=? minute d) && (minute d <=? 59) &&
  (0 <=? second d) && (second d <=? 59).

Definition strptime (data format : string) : exc datetime :=
  let bad := Raise (ValueError (StrptimeError data format)) in
  match pattern format with
  | None => bad
  | Some p =>
      match pat_match p data with
      | [] => bad                                   (* does not match format *)
      | (gs, rest) :: _ =>
          if negb (String.eqb rest "") then bad     (* unconverted data remains *)
          else
            let field n default :=
              match group n gs with
              | Some m => int_digits 0 m
              | None => default
              end in
            let d := mk_datetime (field "Y"%char 1900) (field "m"%char 1)
                                 (field "d"%char 1) (field "H"%char 0)
                                 (field "M"%char 0) (field "S"%char 0) in
            if valid_datetime d then Ok d else bad  (* out of range *)
      end
  end.

(** ** urllib.parse.unquote

    After each [%], two hexadecimal digits become the byte they name; a [%]
    not followed by two hexadecimal digits stays.  Decoded text is not
    scanned again.  (Bytes from 0x80 up are then read as UTF-8, invalid
    sequences giving U+FFFD; here they are kept as decoded.) *)

Definition hex_val (c : ascii) : option nat :=
  let n := nat_of_ascii c in
  if between "0" "9" c then Some (n - 48)%nat
  else if between "a" "f" c then Some (n - 87)%nat
  else if between "A" "F" c then Some (n - 55)%nat
  else None.

Fixpoint unquote (s : string) : string :=
  match s with
  | "" => ""
  | String c t =>
      if Ascii.eqb c "%" then
        match t with
        | String a (String b rest) =>
            match hex_val a, hex_val b with
            | Some h, Some l => String (ascii_of_nat (16 * h + l)) (unquote rest)
            | _, _ => String c (unquote t)
            end
        | _ => String c (unquote t)
        end
      else String c (unquote t)
  end.

(** ** The HTTP capability

    [requests.Session.get] is taken as given: asked for a URL it answers
    with a status code, a decoded JSON body and a raw byte stream. *)

Inductive url :=
| DropURI (slug : value)     (* Drop.base / slug *)
| ApiURI (path : string)     (* CloudAppClient.base / path *)
| Href (link : value).       (* a link found in a response *)

Record response := mk_response {
  status_code : Z;
  json : value;
  raw : string
}.

Record CloudAppClient := mk_client {
  session_get : url -> response
}.

(** [api(path)], CloudAppClient.__call__ with the default method. *)
Definition call (api : CloudAppClient) (path : string) : response :=
  session_get api (ApiURI path).

(** ** Drop: the normaliser *)

Abbreviation drop := (gmap string value).

Inductive origin :=
| One (key : string)
| Many (keys : list string).

(** [Drop._json_map] (client.py, lines 56-69), in the order written. *)
Definition _json_map : list (origin * string) :=
  [ (One "id", "id");
    (One "slug", "slug");
    (One "created_at", "uploaded");
    (One "item_type", "type");
    (One "name", "name");
    (One "redirect_url", "target");
    (Many ["file_name"; "name"], "original");
    (One "view_counter", "views");
    (Many ["source_url"; "remote_url"], "content");
    (One "stats_url", "_stats");
    (One "content_length", "size");
    (One "favourite", "favourite") ].

(** The body of the loop of [_process] (lines 165-175) for one entry: the
    value stored back under [key]. *)
Definition process_field (key : string) (v : value) : exc value :=
  match v with
  | VStr s =>
      if String.eqb key "file_name" then Ok (VStr (unquote s))
      else if endswith key "_at" && truthy (VStr s) then
        match strptime (rstrip "Z" s) "%Y-%m-%dT%H:%M:%S" with
        | Ok d => Ok (VDatetime d)
        | Raise e =>
            if is_ValueError e
            then d ← strptime s "%Y-%m-%d"; Ok (VDatetime d)
            else Raise e
        end
      else Ok (VStr s)
  | _ => Ok v
  end.

(** [Drop._process] (lines 161-175) rewrites the entries of [data] in
    place, in order, up to the first one that raises. *)
Fixpoint _process (data : list (string * value)) : exc (list (string * value)) :=
  match data with
  | [] => Ok []
  | (key, v) :: rest =>
      v' ← process_field key v;
      rest' ← _process rest;
      Ok ((key, v') :: rest')
  end.

Definition origins (o : origin) : list string :=
  match o with
  | Many keys => keys
  | One key => [key]
  end.

(** The inner [for ... else] of [_apply]: the value set on the attribute. *)
Fixpoint first_present (metadata : list (string * value)) (keys : list string) : value :=
  match keys with
  | [] => VNone
  | key :: rest =>
      match dict_get metadata key with
      | Some v => if is_None v then first_present metadata rest else v
      | None => first_present metadata rest
      end
  end.

(** The loop over [_json_map] of [_apply] (lines 148-159). *)
Definition apply_map (metadata : list (string * value)) (self : drop) : drop :=
  fold_left (fun self od => <[snd od := first_present metadata (origins (fst od))]> self)
            _json_map self.

(** [Drop._apply] (lines 144-159) *)
Definition _apply (self : drop) (metadata : value) : exc drop :=
  match metadata with
  | VDict data =>
      data' ← _process data;
      Ok (apply_map data' (<["_data" := VDict data']> self))
  | _ => Raise AttributeError
  end.

(** [Drop(slug, api)]: [Drop.__init__] (lines 74-88) with [json=False]. *)
Definition Drop_init (api : CloudAppClient) (slug : value) : exc drop :=
  let self : drop := {["slug" := slug]} in
  let result := session_get api (DropURI slug) in
  if negb (status_code result =? 200)
  then Raise (ValueError (Received (status_code result)))
  else _apply self (json result).

(** [Drop(record, api, json=True)]: [Drop.__init__] with [json=True]. *)
Definition Drop_init_json (record : value) : exc drop :=
  _apply ∅ record.

(** ** Drop.__class_getitem__: the enumeration *)

Inductive yielded :=
| YDrop (d : drop)
| YRecord (record : value).

Inductive ending :=
| StopIteration            (* the generator returned *)
| Raised (e : exn)         (* an exception left the generator *)
| Pending.                 (* more pages than fuel *)

(** The [for record in result['data']] loop (lines 103-112): what it
    yields, then the counter it leaves or the exception that ends it. *)
Fixpoint page_loop (api : CloudAppClient) (result : value) (records : list value)
    (counter : Z) : list yielded * exc Z :=
  match records with
  | [] => ([], Ok counter)
  | record :: rest =>
      match slug ← py_getitem record "slug"; Drop_init api slug with
      | Raise e =>
          if is_ValueError e then
            let '(ys, r) := page_loop api result rest counter in
            (YRecord record :: ys, r)
          else ([], Raise e)
      | Ok d =>
          let d := <["index" := VInt counter]> d in
          match meta ← py_getitem result "meta"; py_getitem meta "count" with
          | Raise e => ([], Raise e)
          | Ok total =>
              let '(ys, r) := page_loop api result rest (counter + 1) in
              (YDrop (<["total" := total]> d) :: ys, r)
          end
      end
  end.

(** [result.get('links', {}).get('next_url', {}).get('href', None)] *)
Definition next_href (result : value) : exc value :=
  links ← py_get result "links" (VDict []);
  next_url ← py_get links "next_url" (VDict []);
  py_get next_url "href" VNone.

(** The [while] loop (lines 102-114), one unit of fuel per page. *)
Fixpoint pages (fuel : nat) (api : CloudAppClient) (result : value) (counter : Z)
    : list yielded * ending :=
  match fuel with
  | O => ([], Pending)
  | S fuel' =>
      match next_href result with
      | Raise e => ([], Raised e)
      | Ok href =>
          if truthy href then
            match data ← py_getitem result "data"; py_iter data with
            | Raise e => ([], Raised e)
            | Ok records =>
                match page_loop api result records counter with
                | (ys, Raise e) => (ys, Raised e)
                | (ys, Ok counter') =>
                    match links ← py_getitem result "links";
                          next_url ← py_getitem links "next_url";
                          py_getitem next_url "href" with
                    | Raise e => (ys, Raised e)
                    | Ok link =>
                        let '(zs, e) :=
                          pages fuel' api (json (session_get api (Href link))) counter' in
                        (ys ++ zs, e)
                    end
                end
            end
          else ([], StopIteration)
      end
  end.

(** [Drop[api]]: [Drop.__class_getitem__] (lines 90-114) *)
Definition Drop_class_getitem (fuel : nat) (api : CloudAppClient)
    : list yielded * ending :=
  pages fuel api (json (call api "/v3/items")) 0.

(** [CloudAppClient.__getitem__] and [__iter__] (lines 213-221) *)
Definition client_getitem (api : CloudAppClient) (slug : string) : exc drop :=
  Drop_init api (VStr slug).

Definition client_iter (fuel : nat) (api : CloudAppClient) : list yielded * ending :=
  Drop_class_getitem fuel api.

(** ** pathlib (POSIX flavour)

    A path is the list of its parts below the root; it is absolute.  The
    suffix rules are those of CPython 3.8 to 3.12. *)

(** [s.split('/')] *)
Fixpoint split_slash (s : string) : list string :=
  match s with
  | "" => [""]
  | String c t =>
      if Ascii.eqb c "/" then "" :: split_slash t
      else match split_slash t with
           | h :: r => String c h :: r
           | [] => [String c ""]
           end
  end.

(** [Path(s).absolute()] in the working directory [cwd]: empty parts and
    [.] parts are dropped, a relative path is joined to [cwd]. *)
Definition Path_absolute (cwd : list string) (s : string) : list string :=
  let parts := List.filter (fun part => negb (String.eqb part "") && negb (String.eqb part "."))
                           (split_slash s) in
  match s with
  | String "/" _ => parts
  | _ => cwd ++ parts
  end.

(** [p.name] *)
Definition name (p : list string) : string := List.last p "".

(** [p.parent] *)
Definition parent (p : list string) : list string := List.removelast p.

(** [name.rfind('.')] *)
Fixpoint rfind_dot (s : string) : option nat :=
  match s with
  | "" => None
  | String c t =>
      match rfind_dot t with
      | Some i => Some (S i)
      | None => if Ascii.eqb c "." then Some O else None
      end
  end.

(** [p.suffix]: from the last dot of the name, unless that dot is the
    first or the last character. *)
Definition suffix (p : list string) : string :=
  let n := name p in
  match rfind_dot n with
  | Some i =>
      if (0 <? i)%nat && (i <? String.length n - 1)%nat
      then substring i (String.length n - i) n
      else ""
  | None => ""
  end.

(** [p.with_suffix(suffix)] for a suffix that starts with a dot. *)
Definition with_suffix (p : list string) (new : string) : exc (list string) :=
  let n := name p in
  if String.eqb n "" then Raise (ValueError EmptyName)
  else
    let old_suffix := suffix p in
    let n' := if String.eqb old_suffix "" then String.append n new
              else String.append
                     (substring 0 (String.length n - String.length old_suffix) n) new in
    Ok (parent p ++ [n']).

(** ** The local machine

    The file system is a finite map from absolute paths to regular files.
    Directories are implicit: the working directory, its ancestors and the
    ancestors of a file are there, so that
    [mkdir(parents=True, exist_ok=True)] has nothing to record and fails
    only where a regular file stands in the way.  Paths are compared part
    by part. *)

Record file := mk_file {
  contents : string;
  st_atime : Z;
  st_mtime : Z
}.

Record world := mk_world {
  files : gmap (list string) file;
  cwd : list string;           (* the working directory *)
  clock : Z;                   (* the time stamped on what is written *)
  downloads : list value       (* content URIs requested, latest first *)
}.

(** A computation on the machine that may raise; what it did before
    raising stays done. *)
Definition io (A : Type) : Type := world -> exc A * world.

#[global] Instance io_ret : MRet io := fun A a w => (Ok a, w).
#[global] Instance io_bind : MBind io := fun A B k m w =>
  match m w with
  | (Ok a, w') => k a w'
  | (Raise e, w') => (Raise e, w')
  end.

Definition lift {A} (r : exc A) : io A := fun w => (r, w).

Definition set_files (fs : gmap (list string) file) (w : world) : world :=
  mk_world fs (cwd w) (clock w) (downloads w).

(** The machine after [data] is stored as the contents of [p] (opening for
    writing truncates, writing fills): the modification time becomes the
    current time. *)
Definition put (p : list string) (data : string) (w : world) : world :=
  let atime := match files w !! p with
               | Some f => st_atime f
               | None => clock w
               end in
  set_files (<[p := mk_file data atime (clock w)]> (files w)) w.

(** A directory of the machine: the working directory, an ancestor of it,
    or an ancestor of a file. *)
Definition is_dir (w : world) (p : list string) : bool :=
  bool_decide (p `prefix_of` cwd w) ||
  existsb (fun q => bool_decide (p `prefix_of` q) && negb (bool_decide (p = q)))
          (map fst (map_to_list (files w))).

(** What [p] names is a directory: one of the machine or, for a path whose
    last part is [..], the parent of the directory before it ([save] asks
    once it has made the directories of the destination). *)
Definition names_dir (w : world) (p : list string) : bool :=
  is_dir w p || String.eqb (name p) "..".

(** [open(p, 'w')] and the write: [IsADirectoryError] where [p] names a
    directory. *)
Definition store (p : list string) (data : string) : io unit := fun w =>
  if names_dir w p then (Raise OSError, w) else (Ok (), put p data w).

(** [p.mkdir(parents=True, exist_ok=True)] *)
Definition mkdir_parents (p : list string) : io unit := fun w =>
  if existsb (fun n => bool_decide (is_Some (files w !! take n p)))
             (seq 1 (List.length p))
  then (Raise OSError, w)
  else (Ok (), w).

(** [p.exists()] *)
Definition exists_ (p : list string) : io bool := fun w =>
  (Ok (bool_decide (is_Some (files w !! p)) || names_dir w p), w).

(** [os.utime(p, (atime, mtime))]; the times of a directory are not
    represented. *)
Definition touch (p : list string) (f : file) (atime mtime : Z) (w : world) : world :=
  set_files (<[p := mk_file (contents f) atime mtime]> (files w)) w.

Definition utime (p : list string) (atime mtime : Z) : io unit := fun w =>
  match files w !! p with
  | Some f => (Ok (), touch p f atime mtime w)
  | None => if names_dir w p then (Ok (), w) else (Raise OSError, w)
  end.

(** [os.getcwd()] *)
Definition getcwd : io (list string) := fun w => (Ok (cwd w), w).

(** The machine after a request for [uri]. *)
Definition requested (uri : value) (w : world) : world :=
  mk_world (files w) (cwd w) (clock w) (uri :: downloads w).

(** ** Drop.save *)

(** Library functions [save] calls, taken as given. *)
Record library := mk_library {
  dumps : value -> string;       (* bson.json_util.dumps(v, indent=4, sort_keys=True) *)
  plist : value -> exc string;   (* plistlib.dumps(v, fmt=FMT_BINARY) *)
  mktime : datetime -> Z;        (* time.mktime(d.timetuple()) *)
  str : value -> string;         (* format(v, ''), that is str(v) *)
  is_url : string -> bool;       (* requests takes the text for a URL it can ask:
                                    an http or https scheme and a host *)
  dir_size : list string -> Z    (* os.path.getsize(p) of a directory p *)
}.

(** [self.attr]: the instance's own attribute, else the class default. *)
Definition getattr (self : drop) (attr : string) : exc value :=
  match self !! attr with
  | Some v => Ok v
  | None => if String.eqb attr "favourite" then Ok (VBool false) else Raise AttributeError
  end.

(** [v == s] for a string [s] *)
Definition eq_str (v : value) (s : string) : bool :=
  match v with
  | VStr s' => String.eqb s' s
  | _ => false
  end.

(** [n != v] for an integer [n] *)
Definition ne_int (n : Z) (v : value) : bool :=
  match v with
  | VInt m => negb (n =? m)
  | VBool b => negb (n =? (if b then 1 else 0))
  | _ => true
  end.

(** [d.timetuple()] and [d.year] exist on a datetime only. *)
Definition as_datetime (v : value) : exc datetime :=
  match v with
  | VDatetime d => Ok d
  | _ => Raise AttributeError
  end.

Section Save.
Variable lib : library.
Variable api : CloudAppClient.

(** [self._storage.format(self=self)] *)
Definition _storage (self : drop) : exc string :=
  uploaded ← getattr self "uploaded";
  d ← as_datetime uploaded;
  id ← getattr self "id";
  slug ← getattr self "slug";
  type ← getattr self "type";
  original ← getattr self "original";
  Ok (String.concat ""
        [str lib (VInt (year d)); "/"; str lib (VInt (month d)); "/";
         str lib (VInt (day d)); "/"; str lib id; "--"; str lib slug; "--";
         str lib type; "--"; str lib original]).

(** [os.path.getsize(p)] *)
Definition getsize (p : list string) : io Z := fun w =>
  match files w !! p with
  | Some f => (Ok (Z.of_nat (String.length (contents f))), w)
  | None => if names_dir w p then (Ok (dir_size lib p), w) else (Raise OSError, w)
  end.

(** [session.get(uri, stream=True).raw], noting the request.  What is no
    string is turned into one by [str()], which gives no URL. *)
Definition download (uri : value) : io string := fun w =>
  match uri with
  | VStr s =>
      if is_url lib s then (Ok (raw (session_get api (Href uri))), requested uri w)
      else (Raise (ValueError NoURL), w)
  | _ => (Raise (ValueError NoURL), w)
  end.

(** The download of the [else] branch: open the target for writing, ask
    for the content, copy the stream. *)
Definition fetch_content (self : drop) (target : list string) : io unit :=
  store target "";;
  content ← lift (getattr self "content");
  data ← download content;
  store target data.

(** The test of the [else] branch:
    [not target.exists() or (self.size and getsize(target) != self.size)] *)
Definition needs_content (self : drop) (target : list string) : io bool :=
  there ← exists_ target;
  if negb there then mret true
  else
    size ← lift (getattr self "size");
    if truthy size then
      n ← getsize target;
      mret (ne_int n size)
    else mret false.

(** The path [save] writes to: the one given, else the storage name. *)
Definition destination (self : drop) (path : option string) : exc string :=
  match path with
  | Some p => if String.eqb p "" then _storage self else Ok p
  | None => _storage self
  end.

(** [Drop.save] (lines 120-142) *)
Definition save (self : drop) (path : option string) : io unit :=
  path ← lift (destination self path);
  here ← getcwd;
  let target := Path_absolute here path in
  mkdir_parents (parent target);;
  info ← lift (with_suffix target ".info.json");
  store info "";;
  data ← lift (getattr self "_data");
  store info (dumps lib data);;
  type ← lift (getattr self "type");
  target ←
    (if eq_str type "bookmark" then
       target ← lift (with_suffix target ".webloc");
       url ← lift (getattr self "target");
       bytes ← lift (plist lib (VDict [("URL", url)]));
       store target bytes;;
       mret target
     else
       again ← needs_content self target;
       (if again : bool then fetch_content self target else mret ());;
       mret target);
  uploaded ← lift (getattr self "uploaded");
  d ← lift (as_datetime uploaded);
  utime target (mktime lib d) (mktime lib d).

End Save.

(** ** A concrete library and service, to run the model on *)

(** [str(v)] for [None], booleans, integers and strings. *)
Definition str_scalar (v : value) : string :=
  match v with
  | VNone => "None"
  | VBool b => if b then "True" else "False"
  | VInt n => pretty n
  | VStr s => s
  | _ => ""
  end.

(** Days from 1970-01-01 to the given civil date. *)
Definition days_from_civil (y m d : Z) : Z :=
  let y' := if m <=? 2 then y - 1 else y in
  let era := y' / 400 in
  let yoe := y' - era * 400 in
  let doy := (153 * (if 2 <? m then m - 3 else m + 9) + 2) / 5 + d - 1 in
  let doe := yoe * 365 + yoe / 4 - yoe / 100 + doy in
  era * 146097 + doe - 719468.

(** [time.mktime] where local time is UTC. *)
Definition mktime_utc (d : datetime) : Z :=
  days_from_civil (year d) (month d) (day d) * 86400
  + hour d * 3600 + minute d * 60 + second d.

Definition demo_lib : library :=
  mk_library
    (fun v => match v with
              | VDict d => String.append "{" (String.append (String.concat "," (map fst d)) "}")
              | _ => "null"
              end)
    (fun v => match v with
              | VDict [(_, VStr u)] => Ok (String.append "bplist00" u)
              | _ => Raise TypeError
              end)
    mktime_utc
    str_scalar
    (fun s => String.prefix "https://" s || String.prefix "http://" s)
    (fun _ => 4096).

(** A record of the listing. *)
Definition demo_record (slug : string) : value :=
  VDict [("id", VInt 7); ("slug", VStr slug); ("item_type", VStr "image");
         ("name", VStr "photo.png"); ("content_length", VInt 5)].

(** The detail of a slug: [link] is a bookmark, any other an image of five
    bytes, declared as ten under the slug [ten] and as none under [zero]. *)
Definition demo_fields (slug : string) : list (string * value) :=
  if String.eqb slug "link" then
    [("id", VInt 8); ("slug", VStr slug); ("item_type", VStr "bookmark");
     ("name", VStr "x"); ("redirect_url", VStr "https://example.com/x");
     ("created_at", VStr "2021-05-03")]
  else
    [("id", VInt 7); ("slug", VStr slug); ("item_type", VStr "image");
     ("name", VStr "photo.png"); ("file_name", VStr "my%20photo.png");
     ("created_at", VStr "2021-05-03T10:15:00Z");
     ("source_url", VStr "https://f.cl.ly/photo.png");
     ("content_length",
      VInt (if String.eqb slug "ten" then 10
            else if String.eqb slug "zero" then 0 else 5))].

Definition demo_detail (slug : string) : value := VDict (demo_fields slug).

Definition demo_page (slugs : list string) (next : option string) : value :=
  VDict ([("data", VList (map demo_record slugs));
          ("meta", VDict [("count", VInt 4)])]
         ++ match next with
            | Some href => [("links", VDict [("next_url", VDict [("href", VStr href)])])]
            | None => []
            end).

(** Page [i] of a listing given by the slugs of each page; all but the last
    page link to the next one, by its number. *)
Fixpoint demo_listing (listing : list (list string)) (i : nat) (href : string) : value :=
  match listing with
  | [] => VNone
  | slugs :: rest =>
      if String.eqb href (pretty i)
      then demo_page slugs (match rest with [] => None | _ => Some (pretty (S i)) end)
      else demo_listing rest (S i) href
  end.

(** A service with that listing; the detail of the slug [bad] answers 404,
    every other 200, and any content is [hello]. *)
Definition demo_api (listing : list (list string)) : CloudAppClient :=
  mk_client (fun u =>
    match u with
    | ApiURI _ => mk_response 200 (demo_listing listing 0 "0") ""
    | Href (VStr href) => mk_response 200 (demo_listing listing 0 href) "hello"
    | Href _ => mk_response 200 VNone "hello"
    | DropURI (VStr slug) =>
        if String.eqb slug "bad" then mk_response 404 VNone ""
        else mk_response 200 (demo_detail slug) ""
    | DropURI _ => mk_response 404 VNone ""
    end).

(** What was yielded, in short: slug, index and total of a drop, or the
    slug of a raw record. *)
Definition summary (y : yielded) : string * option (value * value) :=
  match y with
  | YDrop d =>
      (match d !! "slug" with Some (VStr s) => s | _ => "" end,
       match d !! "index", d !! "total" with
       | Some i, Some t => Some (i, t)
       | _, _ => None
       end)
  | YRecord r =>
      (match py_getitem r "slug" with Ok (VStr s) => s | _ => "" end, None)
  end.

(** ** Vocabulary of the statements, and data to run the model on *)

(** The groups of a match are named by the pattern. *)
Fixpoint names (p : list item) : list ascii :=
  match p with
  | [] => []
  | Group n _ :: p' => n :: names p'
  | Lit _ :: p' => names p'
  end.

Definition absent_or_null (data : list (string * value)) (key : string) : Prop :=
  dict_get data key = None \/ dict_get data key = Some VNone.

(** Every raw key the table names. *)
Definition mapped_keys : list string :=
  flat_map (fun od => origins (fst od)) _json_map.

Definition demo_processed : list (string * value) :=
  [("id", VInt 7); ("slug", VStr "a"); ("item_type", VStr "image");
   ("name", VStr "photo.png"); ("file_name", VStr "my photo.png");
   ("created_at", VDatetime (mk_datetime 2021 5 3 10 15 0));
   ("source_url", VStr "https://f.cl.ly/photo.png");
   ("content_length", VInt 5)].

(** The pages of a listing, as the enumeration walks them: each page but
    the last links to the next. *)
Inductive listing (api : CloudAppClient) : value -> list (list value) -> Prop :=
| listing_last result link data records :
    next_href result = Ok link -> truthy link = false ->
    py_getitem result "data" = Ok data -> py_iter data = Ok records ->
    listing api result [records]
| listing_next result link data records total rest :
    next_href result = Ok link -> truthy link = true ->
    py_getitem result "data" = Ok data -> py_iter data = Ok records ->
    (meta ← py_getitem result "meta"; py_getitem meta "count") = Ok total ->
    listing api (json (session_get api (Href link))) rest ->
    listing api result (records :: rest).

(** [p.stem] *)
Definition stem (p : list string) : string :=
  if String.eqb (suffix p) "" then name p
  else substring 0 (String.length (name p) - String.length (suffix p)) (name p).

Definition demo_service : CloudAppClient := demo_api [["a"]].

(** The drop the service gives for a slug. *)
Definition demo_item (slug : string) : drop :=
  match Drop_init demo_service (VStr slug) with
  | Ok d => d
  | Raise _ => ∅
  end.

Definition demo_drop : drop :=
  apply_map demo_processed (<["_data" := VDict demo_processed]> {["slug" := VStr "a"]}).

Definition demo_world : world :=
  mk_world ∅ ["home"; "me"] 1700000000 [].

Definition demo_info : list string :=
  ["home"; "me"; "2021"; "5"; "3"; "7--a--image--my photo.info.json"].
Definition demo_target : list string :=
  ["home"; "me"; "2021"; "5"; "3"; "7--a--image--my photo.png"].

Definition demo_saved : world :=
  Eval vm_compute in snd (save demo_lib demo_service demo_drop None demo_world).

Definition demo_bookmark : drop := Eval vm_compute in demo_item "link".

Definition demo_bookmark_saved : world :=
  Eval vm_compute in snd (save demo_lib demo_service demo_bookmark (Some "links/x") demo_world).


(** An item whose declared size is not that of what its content URI
    serves. *)
Definition demo_drop_10 : drop := Eval vm_compute in demo_item "ten".

(** An item whose declared size is 0. *)
Definition demo_drop_0 : drop := Eval vm_compute in demo_item "zero".


(** ** Further vocabulary and data *)

(** The drops among what was yielded, in order. *)
Fixpoint drops (ys : list yielded) : list drop :=
  match ys with
  | [] => []
  | YDrop d :: ys' => d :: drops ys'
  | YRecord _ :: ys' => drops ys'
  end.

(** A service like [demo_api], but the detail of the slug [old] is a record
    whose timestamp matches neither format. *)
Definition demo_api_odd (listing : list (list string)) : CloudAppClient :=
  mk_client (fun u =>
    match u with
    | DropURI (VStr slug) =>
        if String.eqb slug "old"
        then mk_response 200 (VDict [("slug", VStr "old"); ("created_at", VStr "yesterday")]) ""
        else session_get (demo_api listing) u
    | _ => session_get (demo_api listing) u
    end).

(** A second percent-decoding of the [file_name] entry, other entries as
    they are. *)
Definition decode_file_name (kv : string * value) : string * value :=
  match kv with
  | (key, VStr s) => if String.eqb key "file_name" then (key, VStr (unquote s)) else kv
  | _ => kv
  end.

(** A drop made of a record without [created_at]. *)
Definition demo_undated : drop :=
  Eval vm_compute in
    match Drop_init_json (VDict [("id", VInt 3); ("slug", VStr "u"); ("item_type", VStr "image");
                                 ("name", VStr "u.png");
                                 ("source_url", VStr "https://f.cl.ly/u.png")]) with
    | Ok d => d
    | Raise _ => ∅
    end.

(** An action that asks the service for nothing, and one that asks for at
    most one link, which satisfies [P]. *)
Definition silent {A} (m : io A) : Prop :=
  forall w, downloads (snd (m w)) = downloads w.

Definition asks {A} (P : value -> Prop) (m : io A) : Prop :=
  forall w, downloads (snd (m w)) = downloads w \/
            exists u, P u /\ downloads (snd (m w)) = u :: downloads w.

(** ** The export loop ([__main__.main]) *)

(** [format(v, '8')] and [format(v, '12')], as far as the loop depends on
    them: the text goes to the progress bar, and [None], lists and
    mappings take no width. *)
Definition format_width (v : value) : exc unit :=
  match v with
  | VNone | VList _ | VDict _ => Raise TypeError
  | _ => Ok ()
  end.

(** [p.write_text(data)]: the parent has to be a directory, and [p] none. *)
Definition write_text (p : list string) (data : string) : io unit := fun w =>
  if is_dir w (parent p) && negb (is_dir w p) then (Ok (), put p data w)
  else (Raise OSError, w).

Section Main.

Variable lib : library.
Variable api : CloudAppClient.

(** The file name of line 15. *)
Definition broken_name (record : value) : exc string :=
  item_type ← py_getitem record "item_type";
  id ← py_getitem record "id";
  name ← py_getitem record "name";
  Ok (String.concat ""
        ["broken--"; str lib item_type; "--"; str lib id; "--"; str lib name; ".info.json"]).

(** The body of the [for] loop (lines 14-23) for one thing the enumeration
    yields; the progress bar only displays. *)
Definition main_step (y : yielded) : io unit :=
  match y with
  | YRecord (VDict fields) =>
      name ← lift (broken_name (VDict fields));
      here ← getcwd;
      write_text (Path_absolute here name) (dumps lib (VDict fields))
  | YRecord _ => lift (Raise AttributeError)
  | YDrop drop =>
      type ← lift (getattr drop "type");
      lift (format_width type);;
      uploaded ← lift (getattr drop "uploaded");
      lift (as_datetime uploaded);;
      slug ← lift (getattr drop "slug");
      lift (format_width slug);;
      lift (getattr drop "total");;
      save lib api drop None
  end.

Fixpoint main_loop (ys : list yielded) : io unit :=
  match ys with
  | [] => mret ()
  | y :: ys => main_step y;; main_loop ys
  end.

(** [main] (lines 11-23): [true] when the loop came to its end, [false]
    when the listing has more pages than [fuel]. *)
Definition main (fuel : nat) : io bool :=
  let '(ys, e) := client_iter fuel api in
  main_loop ys;;
  match e with
  | StopIteration => mret true
  | Raised e => lift (Raise e)
  | Pending => mret false
  end.

End Main.

(** * Properties *)

(** ** Exceptions of the normaliser *)

Lemma exc_bind_Ok {A B} (r : exc A) (k : A -> exc B) b :
  (r ≫= k) = Ok b -> exists a, r = Ok a /\ k a = Ok b.
Proof. destruct r as [a|e]; simpl; [eauto | discriminate]. Qed.

Lemma strptime_raises data format e :
  strptime data format = Raise e -> e = ValueError (StrptimeError data format).
Proof.
  unfold strptime.
  destruct (pattern format); [|congruence].
  destruct (pat_match l data) as [|[gs rest] ?]; [congruence|].
  destruct (negb _); [congruence|].
  destruct (valid_datetime _); congruence.
Qed.

Lemma process_field_raises key v e :
  process_field key v = Raise e ->
  exists data format, e = ValueError (StrptimeError data format).
Proof.
  destruct v; simpl; try discriminate.
  destruct (String.eqb key "file_name"); [discriminate|].
  destruct (endswith key "_at" && _); [|discriminate].
  destruct (strptime (rstrip "Z" s) _) as [d|e1] eqn:E1; [discriminate|].
  apply strptime_raises in E1; subst e1; simpl.
  destruct (strptime s _) as [d|e2] eqn:E2; simpl; [discriminate|].
  apply strptime_raises in E2; subst e2. intros [= <-]. eauto.
Qed.

Lemma process_raises data e :
  _process data = Raise e ->
  exists d format, e = ValueError (StrptimeError d format).
Proof.
  induction data as [|[key v] rest IH]; simpl; [discriminate|].
  destruct (process_field key v) eqn:E; simpl.
  - destruct (_process rest); simpl; [discriminate|].
    intros [= <-]. by apply IH.
  - intros [= <-]. by eapply process_field_raises.
Qed.

Lemma apply_raises self metadata e :
  _apply self metadata = Raise e ->
  e = AttributeError \/ exists d format, e = ValueError (StrptimeError d format).
Proof.
  destruct metadata; simpl; try (intros [= <-]; by left).
  destruct (_process d) eqn:E; simpl; [discriminate|].
  intros [= <-]. right. by eapply process_raises.
Qed.

(** Construction by slug raises the retrieval error, with the status code
    it saw, exactly when the status is not OK. *)
Lemma Drop_init_Received api slug code :
  Drop_init api slug = Raise (ValueError (Received code)) <->
  status_code (session_get api (DropURI slug)) = code /\ code <> 200.
Proof.
  unfold Drop_init.
  destruct (Z.eqb_spec (status_code (session_get api (DropURI slug))) 200) as [E|E];
    simpl.
  - split.
    + intros H. apply apply_raises in H as [H|(d & f & H)]; discriminate.
    + intros [<- H]. contradiction.
  - split.
    + intros [= <-]. done.
    + intros [<- _]. done.
Qed.

(** ** The pre-processing pass *)

Lemma process_get data data' key :
  _process data = Ok data' ->
  match dict_get data key with
  | None => dict_get data' key = None
  | Some v => exists v', process_field key v = Ok v' /\ dict_get data' key = Some v'
  end.
Proof.
  revert data'. induction data as [|[k v] rest IH]; intros data'; simpl.
  - by intros [= <-].
  - intros H. apply exc_bind_Ok in H as (v' & Hv & H).
    apply exc_bind_Ok in H as (rest' & Hr & [= <-]). simpl.
    destruct (String.eqb_spec k key) as [->|_]; [eauto|]. by apply IH.
Qed.

Lemma process_field_None key v v' :
  process_field key v = Ok v' -> is_None v' = is_None v.
Proof.
  destruct v; simpl; try (by intros [= <-]).
  destruct (String.eqb key "file_name"); [by intros [= <-]|].
  destruct (endswith key "_at" && _); [|by intros [= <-]].
  destruct (strptime (rstrip "Z" s) _) as [d|e]; [by intros [= <-]|].
  destruct (is_ValueError e); [|discriminate].
  destruct (strptime s _); simpl; [by intros [= <-]|discriminate].
Qed.

(** A timestamp field: the strict format on the value without its trailing
    [Z]s, else the date-only format on the value, else the error of the
    latter. *)
Lemma process_field_timestamp key s :
  endswith key "_at" = true -> s <> "" -> key <> "file_name" ->
  process_field key (VStr s) =
  match strptime (rstrip "Z" s) "%Y-%m-%dT%H:%M:%S" with
  | Ok d => Ok (VDatetime d)
  | Raise _ =>
      match strptime s "%Y-%m-%d" with
      | Ok d => Ok (VDatetime d)
      | Raise _ => Raise (ValueError (StrptimeError s "%Y-%m-%d"))
      end
  end.
Proof.
  intros Hk Hs Hf. simpl.
  destruct (String.eqb_spec key "file_name"); [done|]. rewrite Hk. simpl.
  destruct (String.eqb_spec s ""); [done|]. simpl.
  destruct (strptime (rstrip "Z" s) _) as [d|e] eqn:E1; [done|].
  apply strptime_raises in E1 as ->. simpl.
  destruct (strptime s _) as [d|e] eqn:E2; simpl; [done|].
  by apply strptime_raises in E2 as ->.
Qed.

Lemma pat_match_group p : forall s gs rest n,
  In (gs, rest) (pat_match p s) -> ~ In n (names p) -> group n gs = None.
Proof.
  induction p as [|[n' r|c] p IH]; intros s gs rest n; simpl.
  - by intros [[= <- <-]|[]] _.
  - intros Hin Hn. apply in_flat_map in Hin as (m & _ & Hin).
    apply in_map_iff in Hin as ([g r'] & [= <- <-] & Hin). simpl.
    destruct (Ascii.eqb_spec n' n); [tauto|]. eapply IH; eauto.
  - destruct s; [intros []|]. destruct (Ascii.eqb _ _); [|intros []]. apply IH.
Qed.

(** The date-only format gives midnight. *)
Lemma strptime_date_midnight s d :
  strptime s "%Y-%m-%d" = Ok d -> hour d = 0 /\ minute d = 0 /\ second d = 0.
Proof.
  unfold strptime.
  destruct (pattern "%Y-%m-%d") as [p|] eqn:Hp; [|discriminate].
  assert (Hn : names p = ["Y"; "m"; "d"]%char)
    by (vm_compute in Hp; injection Hp as <-; reflexivity).
  clear Hp.
  destruct (pat_match p s) as [|[gs rest] ?] eqn:Hm; [discriminate|].
  assert (Hg : forall n, ~ In n ["Y"; "m"; "d"]%char -> group n gs = None).
  { intros n H. eapply pat_match_group; [rewrite Hm; by left|by rewrite Hn]. }
  destruct (negb _); [discriminate|].
  destruct (valid_datetime _); [|discriminate].
  intros [= <-]. simpl.
  rewrite !Hg; [done| |  |]; simpl; intros H; decompose [or] H; done.
Qed.

(** ** The field mapping *)

Lemma first_present_skip data before rest :
  (forall k, In k before -> absent_or_null data k) ->
  first_present data (before ++ rest) = first_present data rest.
Proof.
  induction before as [|k before IH]; intros H; simpl; [done|].
  destruct (H k) as [-> | ->]; [by left| |]; simpl; apply IH; intros; apply H; by right.
Qed.

Lemma first_present_hit data key rest v :
  dict_get data key = Some v -> v <> VNone ->
  first_present data (key :: rest) = v.
Proof. intros H Hv. simpl. rewrite H. by destruct v. Qed.

Lemma first_present_none data keys :
  (forall k, In k keys -> absent_or_null data k) -> first_present data keys = VNone.
Proof.
  intros H. rewrite <- (app_nil_r keys). by rewrite first_present_skip.
Qed.

Lemma first_present_ext data1 data2 keys :
  (forall k, In k keys -> dict_get data1 k = dict_get data2 k) ->
  first_present data1 keys = first_present data2 keys.
Proof.
  induction keys as [|k keys IH]; intros H; simpl; [done|].
  rewrite (H k) by (by left). rewrite IH; [done|]. intros; apply H; by right.
Qed.

(** What the mapping loop leaves under an attribute name. *)
Lemma apply_map_lookup data (self : drop) attr :
  apply_map data self !! attr =
  match find (fun od => String.eqb (snd od) attr) _json_map with
  | Some od => Some (first_present data (origins (fst od)))
  | None => self !! attr
  end.
Proof.
  unfold apply_map, _json_map. cbn [fold_left fst snd].
  repeat (rewrite lookup_insert; case_decide; [subst attr; reflexivity|]).
  cbn [find snd].
  repeat match goal with
         | |- context [String.eqb ?a attr] =>
             destruct (String.eqb_spec a attr); [congruence|]
         end.
  reflexivity.
Qed.

Lemma apply_map_entry data (self : drop) origin attr :
  In (origin, attr) _json_map ->
  apply_map data self !! attr = Some (first_present data (origins origin)).
Proof.
  intros H. rewrite apply_map_lookup. unfold _json_map in H. simpl in H.
  repeat (destruct H as [[= <- <-]|H]; [reflexivity|]). destruct H.
Qed.

Lemma apply_map_ext data1 data2 (self : drop) :
  (forall k, In k mapped_keys -> dict_get data1 k = dict_get data2 k) ->
  apply_map data1 self = apply_map data2 self.
Proof.
  intros H. apply map_eq. intros attr. rewrite !apply_map_lookup.
  destruct (find _ _) as [[o a]|] eqn:E; [|done].
  apply find_some in E as [E _]. f_equal. apply first_present_ext.
  intros k Hk. apply H. unfold mapped_keys. apply in_flat_map. by exists (o, a).
Qed.

(** What [_apply] leaves under the attribute of an entry of the table. *)
Lemma apply_candidates (self : drop) data d origin attr :
  _apply self (VDict data) = Ok d ->
  In (origin, attr) _json_map ->
  (forall before key after v,
      origins origin = before ++ key :: after ->
      (forall k, In k before -> absent_or_null data k) ->
      dict_get data key = Some v -> v <> VNone ->
      exists v', process_field key v = Ok v' /\ d !! attr = Some v')
  /\ ((forall k, In k (origins origin) -> absent_or_null data k) ->
      d !! attr = Some VNone)
  /\ (forall other,
      (forall k, In k mapped_keys -> dict_get other k = dict_get data k) ->
      forall self', apply_map other self' = apply_map data self').
Proof.
  intros Happly Hin. simpl in Happly.
  apply exc_bind_Ok in Happly as (data' & Hp & [= <-]).
  assert (Hnull : forall k, absent_or_null data k -> absent_or_null data' k).
  { intros k [H|H]; pose proof (process_get _ _ k Hp) as Hg; rewrite H in Hg.
    - by left.
    - destruct Hg as (v' & Hv & Hg). right. rewrite Hg. by injection Hv as <-. }
  rewrite (apply_map_entry _ _ _ _ Hin). repeat split.
  - intros before key after v Ho Hb Hk Hv.
    pose proof (process_get _ _ key Hp) as Hg. rewrite Hk in Hg.
    destruct Hg as (v' & Hv' & Hg). exists v'. split; [done|].
    rewrite Ho, first_present_skip by (intros; apply Hnull; auto).
    f_equal. apply first_present_hit; [done|].
    apply process_field_None in Hv'. destruct v', v; done.
  - intros H. f_equal. apply first_present_none. intros; apply Hnull; auto.
  - intros other H self'. by apply apply_map_ext.
Qed.

(** C7. For every attribute of the mapping table, [_apply] sets it to the
    value (as left by the pre-processing pass) of the first candidate key
    that the raw record holds with a non-null value; it sets it to [None]
    when no candidate is present with a non-null value; and the attributes
    set by the mapping loop do not depend on keys outside the table. *)
Theorem apply_first_candidate (self : drop) data d origin attr :
  _apply self (VDict data) = Ok d ->
  In (origin, attr) _json_map ->
  (forall before key after v,
      origins origin = before ++ key :: after ->
      (forall k, In k before -> absent_or_null data k) ->
      dict_get data key = Some v -> v <> VNone ->
      exists v', process_field key v = Ok v' /\ d !! attr = Some v')
  /\ ((forall k, In k (origins origin) -> absent_or_null data k) ->
      d !! attr = Some VNone)
  /\ (forall other,
      (forall k, In k mapped_keys -> dict_get other k = dict_get data k) ->
      forall self', apply_map other self' = apply_map data self').
Proof. exact (apply_candidates self data d origin attr). Qed.

Lemma demo_process : _process (demo_fields "a") = Ok demo_processed.
Proof. vm_compute. reflexivity. Qed.

Lemma demo_apply (self : drop) :
  _apply self (demo_detail "a")
  = Ok (apply_map demo_processed (<["_data" := VDict demo_processed]> self)).
Proof. unfold _apply, demo_detail. by rewrite demo_process. Qed.

(** The items used below are what the service gives for their slugs. *)
Lemma demo_items :
  Drop_init demo_service (VStr "a") = Ok demo_drop /\
  Drop_init demo_service (VStr "ten") = Ok demo_drop_10 /\
  Drop_init demo_service (VStr "zero") = Ok demo_drop_0 /\
  Drop_init demo_service (VStr "link") = Ok demo_bookmark.
Proof.
  split; [exact (demo_apply {["slug" := VStr "a"]})|].
  split; [vm_cast_no_check (eq_refl (Ok demo_drop_10))|].
  split; [vm_cast_no_check (eq_refl (Ok demo_drop_0))|].
  vm_cast_no_check (eq_refl (Ok demo_bookmark)).
Qed.

Lemma apply_first_candidate_witness :
  exists d,
    _apply ∅ (demo_detail "a") = Ok d /\
    d !! "original" = Some (VStr "my photo.png") /\
    d !! "target" = Some VNone.
Proof.
  exists (apply_map demo_processed (<["_data" := VDict demo_processed]> ∅)).
  pose proof (demo_apply ∅) as H.
  split; [exact H|]. split.
  - destruct (apply_first_candidate _ _ _ (Many ["file_name"; "name"]) "original" H
                ltac:(simpl; tauto)) as (H1 & _ & _).
    destruct (H1 [] "file_name" ["name"] (VStr "my%20photo.png")
                eq_refl ltac:(simpl; tauto) eq_refl ltac:(discriminate))
      as (v' & Hv & Hd).
    injection Hv as <-. exact Hd.
  - destruct (apply_first_candidate _ _ _ (One "redirect_url") "target" H
                ltac:(simpl; tauto)) as (_ & H2 & _).
    apply H2. intros k [<-|[]]. by left.
Defined.

(** ** The original file name *)

(** C9, as stated, fails: a name supplied by the fallback key [name] is
    stored as it came, not percent-decoded. *)
Lemma original_from_name_not_decoded :
  exists d,
    Drop_init_json (VDict [("name", VStr "a%20b")]) = Ok d /\
    d !! "original" = Some (VStr "a%20b") /\
    VStr "a%20b" <> VStr (unquote "a%20b").
Proof.
  exists (apply_map [("name", VStr "a%20b")]
            (<["_data" := VDict [("name", VStr "a%20b")]]> ∅)).
  split; [reflexivity|]. split; [|discriminate].
  by rewrite (apply_map_entry _ _ (Many ["file_name"; "name"]) "original")
    by (simpl; tauto).
Qed.

(** C9, amended.  The [original] attribute is the percent-decoded value of
    the raw key [file_name] when that key holds a string; when [file_name]
    is absent or null and the fallback key [name] holds a string, it is
    that string unchanged. *)
Theorem original_percent_decoded (self : drop) data d s :
  _apply self (VDict data) = Ok d ->
  (dict_get data "file_name" = Some (VStr s) ->
   d !! "original" = Some (VStr (unquote s)))
  /\ (absent_or_null data "file_name" ->
      dict_get data "name" = Some (VStr s) ->
      d !! "original" = Some (VStr s)).
Proof.
  intros H.
  destruct (apply_candidates _ _ _ (Many ["file_name"; "name"]) "original" H
              ltac:(simpl; tauto)) as (H1 & _ & _).
  split.
  - intros Hf.
    destruct (H1 [] "file_name" ["name"] (VStr s) eq_refl
                ltac:(simpl; tauto) Hf ltac:(discriminate)) as (v' & Hv & Hd).
    by injection Hv as <-.
  - intros Hf Hn.
    destruct (H1 ["file_name"] "name" [] (VStr s) eq_refl
                ltac:(by intros k [<-|[]]) Hn ltac:(discriminate)) as (v' & Hv & Hd).
    by injection Hv as <-.
Qed.

Lemma original_percent_decoded_witness :
  exists d,
    _apply ∅ (demo_detail "a") = Ok d /\
    d !! "original" = Some (VStr (unquote "my%20photo.png")).
Proof.
  exists (apply_map demo_processed (<["_data" := VDict demo_processed]> ∅)).
  pose proof (demo_apply ∅) as H. split; [exact H|].
  exact (proj1 (original_percent_decoded _ _ _ "my%20photo.png" H) eq_refl).
Defined.

(** ** Timestamps *)

Lemma rstrip_Z_once :
  rstrip "Z" "2021-05-03T10:15:00Z" = "2021-05-03T10:15:00".
Proof. reflexivity. Qed.

Lemma timestamp_examples :
  process_field "created_at" (VStr "2021-05-03T10:15:00Z")
    = Ok (VDatetime (mk_datetime 2021 5 3 10 15 0)) /\
  process_field "created_at" (VStr "2021-05-03T10:15:00")
    = Ok (VDatetime (mk_datetime 2021 5 3 10 15 0)) /\
  process_field "updated_at" (VStr "2021-05-03")
    = Ok (VDatetime (mk_datetime 2021 5 3 0 0 0)) /\
  process_field "updated_at" (VStr "yesterday")
    = Raise (ValueError (StrptimeError "yesterday" "%Y-%m-%d")).
Proof. repeat split; vm_compute; reflexivity. Qed.

(** C6: where the code departs from the specification.  The code strips
    every trailing [Z], so a value ending in two of them is still read by
    the first format, although with one optional [Z] removed it matches
    neither format. *)
Theorem timestamp_with_two_Z_accepted :
  process_field "created_at" (VStr "2021-05-03T10:15:00ZZ")
    = Ok (VDatetime (mk_datetime 2021 5 3 10 15 0)) /\
  strptime "2021-05-03T10:15:00Z" "%Y-%m-%dT%H:%M:%S"
    = Raise (ValueError (StrptimeError "2021-05-03T10:15:00Z" "%Y-%m-%dT%H:%M:%S")) /\
  strptime "2021-05-03T10:15:00ZZ" "%Y-%m-%d"
    = Raise (ValueError (StrptimeError "2021-05-03T10:15:00ZZ" "%Y-%m-%d")) /\
  exists d, Drop_init_json (VDict [("created_at", VStr "2021-05-03T10:15:00ZZ")]) = Ok d
            /\ d !! "uploaded" = Some (VDatetime (mk_datetime 2021 5 3 10 15 0)).
Proof.
  assert (H : process_field "created_at" (VStr "2021-05-03T10:15:00ZZ")
              = Ok (VDatetime (mk_datetime 2021 5 3 10 15 0)))
    by (vm_compute; reflexivity).
  split; [exact H|]. split; [vm_compute; reflexivity|].
  split; [vm_compute; reflexivity|].
  eexists. split.
  - unfold Drop_init_json, _apply. cbn [_process]. rewrite H. reflexivity.
  - by rewrite (apply_map_entry _ _ (One "created_at") "uploaded") by (simpl; tauto).
Qed.

(** ** The enumeration *)

Lemma page_loop_app api result before after c :
  page_loop api result (before ++ after) c =
  match page_loop api result before c with
  | (ys, Ok c') => let '(zs, r) := page_loop api result after c' in (ys ++ zs, r)
  | (ys, Raise e) => (ys, Raise e)
  end.
Proof.
  revert c. induction before as [|record before IH]; intros c; simpl.
  - by destruct (page_loop api result after c).
  - destruct (py_getitem record "slug" ≫= _) as [d|e].
    + destruct (py_getitem result "meta" ≫= _) as [total|e]; [|done].
      rewrite IH.
      destruct (page_loop api result before (c + 1)) as [ys [c'|e]]; [|done].
      by destruct (page_loop api result after c').
    + destruct (is_ValueError e); [|done]. rewrite IH.
      destruct (page_loop api result before c) as [ys [c'|e']]; [|done].
      by destruct (page_loop api result after c').
Qed.

(** A record whose detail fetch raises a [ValueError] is yielded as it is
    and the loop goes on with the same counter. *)
Lemma page_loop_degraded api result record rest slug c e :
  py_getitem record "slug" = Ok slug ->
  Drop_init api slug = Raise (ValueError e) ->
  page_loop api result (record :: rest) c =
  (YRecord record :: fst (page_loop api result rest c),
   snd (page_loop api result rest c)).
Proof.
  intros Hs Hd. simpl. rewrite Hs. simpl. rewrite Hd. simpl.
  by destruct (page_loop api result rest c).
Qed.

(** When the loop condition holds, the link followed is the one tested. *)
Lemma next_href_getitem result link :
  next_href result = Ok link -> truthy link = true ->
  (links ← py_getitem result "links";
   next_url ← py_getitem links "next_url";
   py_getitem next_url "href") = Ok link.
Proof.
  unfold next_href. destruct result; simpl; try discriminate.
  destruct (dict_get d "links") as [links|]; simpl.
  - destruct links; simpl; try discriminate.
    destruct (dict_get d0 "next_url") as [next_url|]; simpl.
    + destruct next_url; simpl; try discriminate.
      destruct (dict_get d1 "href"); simpl; [done|].
      by intros [= <-].
    + by intros [= <-].
  - by intros [= <-].
Qed.

(** One turn of the [while] loop on a page that links to a next one. *)
Lemma pages_step fuel api result c link data records ys c' :
  next_href result = Ok link -> truthy link = true ->
  py_getitem result "data" = Ok data -> py_iter data = Ok records ->
  page_loop api result records c = (ys, Ok c') ->
  pages (S fuel) api result c =
  (ys ++ fst (pages fuel api (json (session_get api (Href link))) c'),
   snd (pages fuel api (json (session_get api (Href link))) c')).
Proof.
  intros Hn Ht Hd Hi Hl. simpl. rewrite Hn, Ht, Hd. simpl. rewrite Hi, Hl.
  rewrite (next_href_getitem _ _ Hn Ht).
  by destruct (pages fuel api _ c').
Qed.

(** A page without a link to a next one ends the enumeration before any
    of its records is looked at. *)
Lemma pages_without_next fuel api result c link :
  next_href result = Ok link -> truthy link = false ->
  pages (S fuel) api result c = ([], StopIteration).
Proof. intros Hn Ht. simpl. by rewrite Hn, Ht. Qed.

(** A page all of whose detail fetches succeed: one drop per record, in
    order, numbered from the counter on, each with the count of the page. *)
Lemma page_loop_all_ok api result total records : forall c,
  (meta ← py_getitem result "meta"; py_getitem meta "count") = Ok total ->
  Forall (fun record => exists d,
            (slug ← py_getitem record "slug"; Drop_init api slug) = Ok d) records ->
  exists ys,
    page_loop api result records c = (ys, Ok (c + Z.of_nat (List.length records))) /\
    List.length ys = List.length records /\
    forall (i : nat) y, ys !! i = Some y ->
      exists d, y = YDrop d /\ d !! "index" = Some (VInt (c + Z.of_nat i))
                /\ d !! "total" = Some total.
Proof.
  induction records as [|record rest IH]; intros c Hm Hall.
  - exists []. simpl. rewrite Z.add_0_r. repeat split; [done..|]. by intros i y.
  - inversion Hall as [|? ? [d Hd] Hrest]; subst.
    destruct (IH (c + 1) Hm Hrest) as (ys & Hys & Hlen & Hidx).
    eexists. cbn [page_loop]. rewrite Hd, Hm, Hys. split; [|split].
    + do 2 f_equal. cbn [List.length]. lia.
    + simpl. by rewrite Hlen.
    + intros [|i] y; simpl.
      * intros [= <-]. eexists. split; [done|]. rewrite Z.add_0_r.
        by simplify_map_eq.
      * intros Hy. destruct (Hidx i y Hy) as (d' & -> & Hi & Ht).
        exists d'. split; [done|]. split; [|done]. rewrite Hi. do 2 f_equal. lia.
Qed.

Lemma listing_nonempty api result pgs : listing api result pgs -> pgs <> [].
Proof. by intros []. Qed.

(** With every detail fetch succeeding, the enumeration of a listing stops
    after one drop for each record of every page but the last, numbered
    from the counter on without gaps. *)
Lemma pages_listing api result pgs :
  listing api result pgs ->
  Forall (Forall (fun record => exists d,
            (slug ← py_getitem record "slug"; Drop_init api slug) = Ok d)) pgs ->
  forall fuel c, (List.length pgs <= fuel)%nat ->
  exists ys,
    pages fuel api result c = (ys, StopIteration) /\
    List.length ys = List.length (concat (removelast pgs)) /\
    forall (i : nat) y, ys !! i = Some y ->
      exists d, y = YDrop d /\ d !! "index" = Some (VInt (c + Z.of_nat i)).
Proof.
  induction 1 as [result link data records Hn Ht Hd Hi
                 |result link data records total rest Hn Ht Hd Hi Hm Hrest IH];
    intros Hall [|fuel] c Hfuel; simpl in Hfuel; try lia.
  - exists []. rewrite (pages_without_next _ _ _ _ _ Hn Ht).
    split; [done|]. split; [done|]. by intros i y.
  - inversion Hall as [|? ? Hrec Hall']; subst.
    destruct (page_loop_all_ok api result total records c Hm Hrec)
      as (ys1 & Hys1 & Hlen1 & Hidx1).
    destruct (IH Hall' fuel (c + Z.of_nat (List.length records)) ltac:(lia))
      as (ys2 & Hys2 & Hlen2 & Hidx2).
    exists (ys1 ++ ys2).
    rewrite (pages_step _ _ _ _ _ _ _ _ _ Hn Ht Hd Hi Hys1), Hys2. simpl.
    split; [done|]. split.
    + pose proof (listing_nonempty _ _ _ Hrest) as Hne.
      destruct rest as [|r rest']; [done|].
      change (removelast (records :: r :: rest'))
        with (records :: removelast (r :: rest')).
      cbn [concat]. rewrite !length_app. by rewrite Hlen1, Hlen2.
    + intros i y Hy. apply lookup_app_Some in Hy as [Hy|[Hge Hy]].
      * destruct (Hidx1 i y Hy) as (d & -> & Hd' & _). eauto.
      * destruct (Hidx2 _ y Hy) as (d & -> & Hd').
        exists d. split; [done|]. rewrite Hd'. do 2 f_equal. 
        rewrite <- Hlen1. lia.
Qed.

Lemma length_concat_uniform {A} (l : list (list A)) K :
  Forall (fun x => List.length x = K) l ->
  List.length (concat l) = (List.length l * K)%nat.
Proof.
  induction 1 as [|x l Hx _ IH]; simpl; [done|].
  rewrite length_app, IH, Hx. lia.
Qed.

Lemma Forall_removelast {A} (P : A -> Prop) (l : list A) :
  Forall P l -> Forall P (removelast l).
Proof.
  induction 1 as [|x l Hx Hl IH]; simpl; [constructor|].
  destruct l; [constructor|]. by constructor.
Qed.

Lemma length_removelast {A} (l : list A) :
  List.length (removelast l) = (List.length l - 1)%nat.
Proof.
  induction l as [|x l IH]; simpl; [done|].
  destruct l; [done|]. simpl in *. lia.
Qed.

(** So a listing of N pages of K records each yields (N - 1) * K drops. *)
Lemma pages_listing_count api result pgs K :
  listing api result pgs ->
  Forall (Forall (fun record => exists d,
            (slug ← py_getitem record "slug"; Drop_init api slug) = Ok d)) pgs ->
  Forall (fun records => List.length records = K) pgs ->
  forall fuel c, (List.length pgs <= fuel)%nat ->
  List.length (fst (pages fuel api result c)) = ((List.length pgs - 1) * K)%nat /\
  snd (pages fuel api result c) = StopIteration.
Proof.
  intros Hl Hok HK fuel c Hfuel.
  destruct (pages_listing _ _ _ Hl Hok fuel c Hfuel) as (ys & -> & Hlen & _).
  split; [|done]. cbn [fst]. rewrite Hlen.
  rewrite (length_concat_uniform _ K) by (by apply Forall_removelast).
  by rewrite length_removelast.
Qed.

(** What the code does at a failed retrieval.  Construction by slug raises
    the retrieval error, carrying the status code observed, exactly when
    the detail fetch does not answer OK.  In the enumeration the record
    concerned is yielded as the raw mapping of the listing, at its place,
    the counter is left as it was, the records after it in the page are
    gone through as usual and the loop turns to the next page as after any
    page; from a lookup by slug the same error reaches the caller. *)
Lemma retrieval_error_isolated api result before record after slug ys c c' :
  py_getitem record "slug" = Ok slug ->
  status_code (session_get api (DropURI slug)) <> 200 ->
  page_loop api result before c = (ys, Ok c') ->
  (forall api' slug' code,
     Drop_init api' slug' = Raise (ValueError (Received code)) <->
     status_code (session_get api' (DropURI slug')) = code /\ code <> 200)
  /\ page_loop api result (before ++ record :: after) c =
     (ys ++ YRecord record :: fst (page_loop api result after c'),
      snd (page_loop api result after c'))
  /\ (forall fuel link data zs c'',
       next_href result = Ok link -> truthy link = true ->
       py_getitem result "data" = Ok data ->
       py_iter data = Ok (before ++ record :: after) ->
       page_loop api result after c' = (zs, Ok c'') ->
       pages (S fuel) api result c =
       (ys ++ YRecord record :: zs
           ++ fst (pages fuel api (json (session_get api (Href link))) c''),
        snd (pages fuel api (json (session_get api (Href link))) c'')))
  /\ (forall s, slug = VStr s ->
       client_getitem api s =
       Raise (ValueError (Received (status_code (session_get api (DropURI slug)))))).
Proof.
  intros Hslug Hstatus Hbefore.
  assert (Hd : Drop_init api slug =
               Raise (ValueError (Received (status_code (session_get api (DropURI slug))))))
    by (by apply Drop_init_Received).
  assert (Hloop : page_loop api result (before ++ record :: after) c =
     (ys ++ YRecord record :: fst (page_loop api result after c'),
      snd (page_loop api result after c'))).
  { rewrite page_loop_app, Hbefore.
    rewrite (page_loop_degraded _ _ _ _ _ _ _ Hslug Hd). done. }
  split; [apply Drop_init_Received|]. split; [exact Hloop|]. split.
  - intros fuel link data zs c'' Hn Ht Hdata Hi Hafter.
    rewrite Hafter in Hloop. simpl in Hloop.
    rewrite (pages_step _ _ _ _ _ _ _ _ _ Hn Ht Hdata Hi Hloop).
    by rewrite <- app_assoc.
  - intros s ->. exact Hd.
Qed.

Lemma retrieval_error_isolated_witness :
  let api := demo_api [["a"; "bad"; "b"]; ["c"]; ["d"]] in
  map summary (fst (client_iter 3 api)) =
    [("a", Some (VInt 0, VInt 4)); ("bad", None);
     ("b", Some (VInt 1, VInt 4)); ("c", Some (VInt 2, VInt 4))]
  /\ client_getitem api "bad" = Raise (ValueError (Received 404)).
Proof.
  intros api.
  set (page := demo_page ["a"; "bad"; "b"] (Some "1")).
  assert (Hbefore : page_loop api page [demo_record "a"] 0
                    = (fst (page_loop api page [demo_record "a"] 0), Ok 1))
    by (vm_compute; reflexivity).
  destruct (retrieval_error_isolated api page [demo_record "a"] (demo_record "bad")
              [demo_record "b"] (VStr "bad") _ 0 1 eq_refl
              ltac:(vm_compute; discriminate) Hbefore)
    as (_ & _ & Hpages & Hget).
  split.
  - unfold client_iter, Drop_class_getitem.
    change (json (call api "/v3/items")) with page.
    rewrite (Hpages 2%nat (VStr "1") (VList (map demo_record ["a"; "bad"; "b"]))
               (fst (page_loop api page [demo_record "b"] 1)) 2
               eq_refl eq_refl eq_refl eq_refl ltac:(vm_compute; reflexivity)).
    vm_compute. reflexivity.
  - exact (Hget "bad" eq_refl).
Defined.

(** C5: where the code departs from the specification.  The retrieval
    error is raised, caught in the enumeration and passed on from a lookup
    by slug as claimed, but the enumeration does not go on through the
    following pages: after the raw record [bad] of the first page nothing
    more is yielded, although the second page, the last, holds the record
    [b], whose detail can be retrieved.  This is the defect of C1. *)
Theorem retrieval_error_then_last_page_lost :
  let api := demo_api [["bad"]; ["b"]] in
  client_getitem api "bad" = Raise (ValueError (Received 404)) /\
  (exists d, client_getitem api "b" = Ok d) /\
  json (session_get api (Href (VStr "1"))) = demo_page ["b"] None /\
  client_iter 5 api = ([YRecord (demo_record "bad")], StopIteration).
Proof.
  intros api. split; [vm_compute; reflexivity|]. split.
  - destruct (client_getitem api "b") as [d|e] eqn:E; [by exists d|].
    vm_compute in E. discriminate.
  - split; vm_compute; reflexivity.
Qed.

(** C1: where the code departs from the specification.  The loop tests
    the link to a next page before it looks at the records of the page it
    holds, so the records of the last page are never yielded: two pages of
    two records give two drops, not four, and a listing of one page gives
    none. *)
Theorem last_page_not_enumerated :
  map summary (fst (client_iter 5 (demo_api [["a"; "b"]; ["c"; "d"]]))) =
    [("a", Some (VInt 0, VInt 4)); ("b", Some (VInt 1, VInt 4))]
  /\ snd (client_iter 5 (demo_api [["a"; "b"]; ["c"; "d"]])) = StopIteration
  /\ client_iter 5 (demo_api [["a"; "b"]]) = ([], StopIteration).
Proof. repeat split; vm_compute; reflexivity. Qed.

(** ** Strings and paths *)

Lemma append_nil_r s : String.append s "" = s.
Proof.
  induction s as [|c s IH]; [done|].
  unfold String.append; fold String.append. by rewrite IH.
Qed.

Lemma substring_all s : substring 0 (String.length s) s = s.
Proof. induction s as [|c s IH]; simpl; [done|by rewrite IH]. Qed.

Lemma substring_split s : forall i, (i <= String.length s)%nat ->
  String.append (substring 0 i s) (substring i (String.length s - i) s) = s.
Proof.
  induction s as [|c s IH]; intros [|i] Hi; simpl in *; try lia; try done.
  - by rewrite substring_all.
  - unfold String.append; fold String.append. by rewrite IH by lia.
Qed.

Lemma length_substring s : forall i m, (i + m <= String.length s)%nat ->
  String.length (substring i m s) = m.
Proof.
  induction s as [|c s IH]; intros [|i] [|m] H; simpl in *; try lia; try done.
  - by rewrite (IH 0%nat m) by lia.
  - by rewrite IH by (simpl; lia).
  - by rewrite IH by (simpl; lia).
Qed.

Lemma rfind_dot_lt s i : rfind_dot s = Some i -> (i < String.length s)%nat.
Proof.
  revert i. induction s as [|c s IH]; intros i; simpl; [done|].
  destruct (rfind_dot s) as [j|].
  - intros [= <-]. specialize (IH j eq_refl). lia.
  - destruct (Ascii.eqb c "."); [|done]. intros [= <-]. lia.
Qed.

Lemma rfind_dot_tail s i :
  rfind_dot s = Some i ->
  rfind_dot (substring i (String.length s - i) s) = Some 0%nat.
Proof.
  revert i. induction s as [|c s IH]; intros i; simpl; [done|].
  destruct (rfind_dot s) as [j|] eqn:E.
  - intros [= <-]. simpl. by apply IH.
  - destruct (Ascii.eqb c ".") eqn:Ec; [|done]. intros [= <-].
    rewrite Nat.sub_0_r, substring_all. simpl. by rewrite E, Ec.
Qed.

Lemma with_suffix_stem p new :
  with_suffix p new =
  if String.eqb (name p) "" then Raise (ValueError EmptyName)
  else Ok (parent p ++ [String.append (stem p) new]).
Proof. unfold with_suffix, stem. by destruct (String.eqb (suffix p) ""). Qed.

Lemma suffix_dot p :
  suffix p = "" \/ rfind_dot (suffix p) = Some 0%nat.
Proof.
  unfold suffix. destruct (rfind_dot (name p)) as [i|] eqn:E; [|by left].
  destruct (_ && _); [|by left]. right. by apply rfind_dot_tail.
Qed.

Lemma stem_suffix p : String.append (stem p) (suffix p) = name p.
Proof.
  unfold stem. destruct (String.eqb_spec (suffix p) "") as [->|Hne].
  - apply append_nil_r.
  - revert Hne. unfold suffix.
    destruct (rfind_dot (name p)) as [i|] eqn:E; [|done].
    destruct (_ && _); [|done]. intros _.
    apply rfind_dot_lt in E.
    rewrite length_substring by lia.
    replace (String.length (name p) - (String.length (name p) - i))%nat with i by lia.
    apply substring_split. lia.
Qed.

Lemma name_parent p : name p <> "" -> parent p ++ [name p] = p.
Proof.
  intros H. unfold name, parent. symmetry. apply app_removelast_last.
  intros ->. by apply H.
Qed.

(** The metadata file is never the destination itself. *)
Lemma with_suffix_info_ne p q : with_suffix p ".info.json" = Ok q -> q <> p.
Proof.
  rewrite with_suffix_stem. destruct (String.eqb_spec (name p) ""); [done|].
  intros [= <-] H. rewrite <- (name_parent p) in H at 3 by done.
  apply app_inv_head in H. injection H as H.
  rewrite <- (stem_suffix p) in H. apply (inj (String.append _)) in H.
  destruct (suffix_dot p) as [H'|H']; rewrite <- H in H'; done.
Qed.

(** Nor is it the property-list file. *)
Lemma with_suffix_info_webloc p q q' :
  with_suffix p ".info.json" = Ok q -> with_suffix p ".webloc" = Ok q' -> q <> q'.
Proof.
  rewrite !with_suffix_stem. destruct (String.eqb (name p) ""); [done|].
  intros [= <-] [= <-] H. apply app_inv_head in H. injection H as H.
  by apply (inj (String.append _)) in H.
Qed.

Lemma with_suffix_no_suffix p new :
  name p <> "" -> suffix p = "" ->
  with_suffix p new = Ok (parent p ++ [String.append (name p) new]).
Proof.
  intros Hn Hs. unfold with_suffix. rewrite Hs. simpl.
  by destruct (String.eqb_spec (name p) "").
Qed.

(** ** Running [io] computations *)

Lemma io_bind_Ok {A B} (m : io A) (k : A -> io B) w b w' :
  (m ≫= k) w = (Ok b, w') ->
  exists a w1, m w = (Ok a, w1) /\ k a w1 = (Ok b, w').
Proof.
  unfold mbind, io_bind. destruct (m w) as [[a|e] w1]; [eauto|discriminate].
Qed.

Lemma lift_Ok {A} (r : exc A) w a w' :
  lift r w = (Ok a, w') -> r = Ok a /\ w' = w.
Proof. unfold lift. by intros [= -> ->]. Qed.

Lemma mret_Ok {A} (a b : A) (w w' : world) :
  (mret a : io A) w = (Ok b, w') -> b = a /\ w' = w.
Proof. unfold mret, io_ret. by intros [= -> ->]. Qed.

Ltac io_inv H :=
  repeat match type of H with
  | (_ ≫= _) _ = (Ok _, _) =>
      let a := fresh "a" in let w1 := fresh "w" in let H1 := fresh "H" in
      apply io_bind_Ok in H as (a & w1 & H1 & H);
      first [ apply lift_Ok in H1 as [H1 ->]
            | apply mret_Ok in H1 as [-> ->]
            | idtac ]
  | lift _ _ = (Ok _, _) => apply lift_Ok in H as [H ->]
  end.

Lemma files_put p data w :
  files (put p data w) =
  <[p := mk_file data (match files w !! p with
                       | Some f => st_atime f
                       | None => clock w
                       end) (clock w)]> (files w).
Proof. reflexivity. Qed.

Lemma io_bind_run {A B} (m : io A) (k : A -> io B) w :
  (m ≫= k) w = match m w with
               | (Ok a, w') => k a w'
               | (Raise e, w') => (Raise e, w')
               end.
Proof. reflexivity. Qed.

Ltac run H := rewrite io_bind_run in H; cbv beta iota in H.
Ltac stop H := injection H as <- <-; simpl; eauto.

Lemma files_put_ne p q data w : p <> q -> files (put p data w) !! q = files w !! q.
Proof. intros H. rewrite files_put. by rewrite lookup_insert_ne. Qed.

Lemma files_put_eq p data w :
  exists f, files (put p data w) !! p = Some f /\ contents f = data /\ st_mtime f = clock w.
Proof. rewrite files_put, lookup_insert_eq. eauto. Qed.

Lemma files_touch_ne p q f a m w : p <> q -> files (touch p f a m w) !! q = files w !! q.
Proof. intros H. unfold touch. simpl. by rewrite lookup_insert_ne. Qed.

Lemma files_touch_eq p f a m w :
  files (touch p f a m w) !! p = Some (mk_file (contents f) a m).
Proof. unfold touch. simpl. by rewrite lookup_insert_eq. Qed.

(** ** Directories *)

Lemma is_dir_spec w p :
  is_dir w p = true <->
  p `prefix_of` cwd w \/
  exists q, is_Some (files w !! q) /\ p `prefix_of` q /\ p <> q.
Proof.
  unfold is_dir. rewrite orb_true_iff, bool_decide_eq_true, existsb_exists.
  split; (intros [H|H]; [by left|right]).
  - destruct H as (q & Hin & Hq). apply andb_true_iff in Hq as [Hpre Hne].
    apply bool_decide_eq_true in Hpre. apply negb_true_iff, bool_decide_eq_false in Hne.
    apply in_map_iff in Hin as ([q' f] & <- & Hin).
    apply list_elem_of_In, elem_of_map_to_list in Hin.
    exists q'. by rewrite Hin.
  - destruct H as (q & [f Hf] & Hpre & Hne). exists q. split.
    + apply in_map_iff. exists (q, f). split; [done|].
      by apply list_elem_of_In, elem_of_map_to_list.
    + apply andb_true_iff. split; [by apply bool_decide_eq_true|].
      by apply negb_true_iff, bool_decide_eq_false.
Qed.

Lemma prefix_same_length (p q : list string) :
  List.length p = List.length q -> p `prefix_of` q -> p = q.
Proof.
  intros Hlen [k ->]. rewrite length_app in Hlen.
  destruct k; [by rewrite app_nil_r|]. simpl in Hlen. lia.
Qed.

(** Writing a file makes no directory of a path as long as its own. *)
Lemma is_dir_put q data w p :
  List.length p = List.length q -> is_dir (put q data w) p = is_dir w p.
Proof.
  intros Hlen. apply eq_true_iff_eq. rewrite !is_dir_spec.
  change (cwd (put q data w)) with (cwd w). rewrite files_put.
  split; (intros [H|(k & Hk & Hpre & Hne)]; [by left|right]).
  - destruct (decide (k = q)) as [->|Hkq].
    + by destruct Hne, (prefix_same_length _ _ Hlen Hpre).
    + rewrite lookup_insert_ne in Hk by done. eauto.
  - exists k. split; [|done].
    destruct (decide (q = k)) as [->|Hkq]; [by rewrite lookup_insert_eq|].
    by rewrite lookup_insert_ne.
Qed.

Lemma names_dir_put q data w p :
  List.length p = List.length q -> names_dir (put q data w) p = names_dir w p.
Proof. intros H. unfold names_dir. by rewrite is_dir_put. Qed.

Lemma files_requested uri w : files (requested uri w) = files w.
Proof. reflexivity. Qed.


Lemma with_suffix_length p new q :
  with_suffix p new = Ok q -> List.length q = List.length p.
Proof.
  rewrite with_suffix_stem. destruct (String.eqb_spec (name p) "") as [|Hn]; [done|].
  intros [= <-]. rewrite <- (name_parent p Hn) at 3. by rewrite !length_app.
Qed.

Lemma names_dir_resolved w p :
  ~ In ".." p -> names_dir w p = is_dir w p.
Proof.
  intros H. unfold names_dir, name.
  destruct (String.eqb_spec (List.last p "") "..") as [E|_]; [|by rewrite orb_false_r].
  destruct H. destruct p as [|x p]; [done|].
  destruct (@exists_last _ (x :: p) ltac:(discriminate)) as (l & a & Hl).
  rewrite Hl in *. rewrite last_last in E. subst a.
  apply in_or_app. right. by left.
Qed.

(** ** [save], step by step *)

Lemma store_Ok p data w u w' :
  store p data w = (Ok u, w') -> names_dir w p = false /\ w' = put p data w.
Proof. unfold store. destruct (names_dir w p); [done|]. by intros [= _ <-]. Qed.


(** The test for a download, run. *)
Lemma needs_content_run lib self target w :
  needs_content lib self target w =
  (match files w !! target with
   | Some f =>
       size ← getattr self "size";
       Ok (truthy size && ne_int (Z.of_nat (String.length (contents f))) size)
   | None =>
       if names_dir w target then
         size ← getattr self "size";
         Ok (truthy size && ne_int (dir_size lib target) size)
       else Ok true
   end, w).
Proof.
  unfold needs_content. rewrite io_bind_run. unfold exists_ at 1. cbv beta iota.
  destruct (files w !! target) as [f|] eqn:E.
  - rewrite bool_decide_eq_true_2 by eauto. change (negb (true || _)) with false.
    cbv iota.
    rewrite io_bind_run. unfold lift at 1. cbv beta iota.
    destruct (getattr self "size") as [size|e]; [|reflexivity]. cbv beta iota.
    change (Ok size ≫= _) with
      (Ok (A:=bool) (truthy size && ne_int (Z.of_nat (String.length (contents f))) size)).
    destruct (truthy size); [|reflexivity].
    rewrite io_bind_run. unfold getsize. rewrite E. reflexivity.
  - rewrite bool_decide_eq_false_2 by (by intros [? ?]).
    change (false || ?b) with b.
    destruct (names_dir w target) eqn:Ed; [|reflexivity].
    change (negb true) with false. cbv iota.
    rewrite io_bind_run. unfold lift at 1. cbv beta iota.
    destruct (getattr self "size") as [size|e]; [|reflexivity]. cbv beta iota.
    change (Ok size ≫= _) with
      (Ok (A:=bool) (truthy size && ne_int (dir_size lib target) size)).
    destruct (truthy size); [|reflexivity].
    rewrite io_bind_run. unfold getsize. rewrite E, Ed. reflexivity.
Qed.

Lemma needs_content_Ok lib self target w b w' :
  needs_content lib self target w = (Ok b, w') -> w' = w.
Proof. rewrite needs_content_run. by intros [= _ <-]. Qed.

Lemma download_Ok lib api uri w data w' :
  download lib api uri w = (Ok data, w') ->
  exists s, uri = VStr s /\ is_url lib s = true /\
            data = raw (session_get api (Href uri)) /\ w' = requested uri w.
Proof.
  unfold download. destruct uri; try discriminate.
  destruct (is_url lib s) eqn:E; [|discriminate]. intros [= <- <-]. eauto.
Qed.

Lemma fetch_content_Ok lib api self target w w' :
  fetch_content lib api self target w = (Ok (), w') ->
  exists s, getattr self "content" = Ok (VStr s) /\ is_url lib s = true /\
    names_dir w target = false /\
    w' = put target (raw (session_get api (Href (VStr s))))
           (requested (VStr s) (put target "" w)).
Proof.
  unfold fetch_content. intros H.
  apply io_bind_Ok in H as (u & w1 & H1 & H). apply store_Ok in H1 as [Hd ->].
  apply io_bind_Ok in H as (uri & w1 & H1 & H). apply lift_Ok in H1 as [Huri ->].
  apply io_bind_Ok in H as (data & w1 & H1 & H).
  apply download_Ok in H1 as (s & -> & Hs & -> & ->).
  apply store_Ok in H as [_ ->]. eauto 10.
Qed.

(** What a [save] that returns has done. *)
Lemma save_Ok lib api self path w w' :
  save lib api self path w = (Ok (), w') ->
  exists p info data type d final w2,
    let target := Path_absolute (cwd w) p in
    let w1 := put info (dumps lib data) (put info "" w) in
    destination lib self path = Ok p /\
    with_suffix target ".info.json" = Ok info /\
    names_dir w info = false /\
    getattr self "_data" = Ok data /\
    getattr self "type" = Ok type /\
    getattr self "uploaded" = Ok (VDatetime d) /\
    match files w2 !! final with
    | Some f => w' = touch final f (mktime lib d) (mktime lib d) w2
    | None => names_dir w final = true /\ w' = w2
    end /\
    if eq_str type "bookmark" then
      exists url bytes,
        with_suffix target ".webloc" = Ok final /\
        getattr self "target" = Ok url /\
        plist lib (VDict [("URL", url)]) = Ok bytes /\
        names_dir w final = false /\
        w2 = put final bytes w1
    else
      final = target /\
      exists again, needs_content lib self target w1 = (Ok again, w1) /\
        if again : bool then
          exists s, getattr self "content" = Ok (VStr s) /\ is_url lib s = true /\
            names_dir w target = false /\
            w2 = put target (raw (session_get api (Href (VStr s))))
                   (requested (VStr s) (put target "" w1))
        else w2 = w1.
Proof.
  intros H. unfold save in H.
  apply io_bind_Ok in H as (p & w1 & Hp & H). apply lift_Ok in Hp as [Hp ->].
  apply io_bind_Ok in H as (here & w1 & H1 & H). injection H1 as <- <-.
  apply io_bind_Ok in H as (u & w1 & H1 & H).
  assert (w1 = w) as ->.
  { unfold mkdir_parents in H1. destruct (existsb _ _); by injection H1. }
  clear u H1.
  apply io_bind_Ok in H as (info & w1 & Hinfo & H). apply lift_Ok in Hinfo as [Hinfo ->].
  apply io_bind_Ok in H as (u & w1 & H1 & H). apply store_Ok in H1 as [Hdi ->].
  apply io_bind_Ok in H as (data & w1 & Hdata & H). apply lift_Ok in Hdata as [Hdata ->].
  apply io_bind_Ok in H as (u' & w1 & H1 & H). apply store_Ok in H1 as [_ ->].
  apply io_bind_Ok in H as (type & w1 & Htype & H). apply lift_Ok in Htype as [Htype ->].
  apply io_bind_Ok in H as (final & w2 & Hbody & H).
  apply io_bind_Ok in H as (uploaded & w1 & Hup & H). apply lift_Ok in Hup as [Hup ->].
  apply io_bind_Ok in H as (d & w1 & Hd & H). apply lift_Ok in Hd as [Hd ->].
  destruct uploaded as [| | | |d'| |]; try discriminate. injection Hd as ->.
  pose proof (with_suffix_length _ _ _ Hinfo) as Hlen.
  set (target := Path_absolute (cwd w) p) in *.
  set (w1 := put info (dumps lib data) (put info "" w)) in *.
  assert (Hsame : forall q, List.length q = List.length target ->
                            names_dir w1 q = names_dir w q).
  { intros q Hq. unfold w1. rewrite !names_dir_put by congruence. done. }
  assert (Hbody' :
    if eq_str type "bookmark" then
      exists url bytes,
        with_suffix target ".webloc" = Ok final /\
        getattr self "target" = Ok url /\
        plist lib (VDict [("URL", url)]) = Ok bytes /\
        names_dir w final = false /\
        w2 = put final bytes w1
    else
      final = target /\
      exists again, needs_content lib self target w1 = (Ok again, w1) /\
        if again : bool then
          exists s, getattr self "content" = Ok (VStr s) /\ is_url lib s = true /\
            names_dir w target = false /\
            w2 = put target (raw (session_get api (Href (VStr s))))
                   (requested (VStr s) (put target "" w1))
        else w2 = w1).
  { destruct (eq_str type "bookmark").
    - apply io_bind_Ok in Hbody as (q & w3 & Hq & Hb). apply lift_Ok in Hq as [Hq ->].
      apply io_bind_Ok in Hb as (url & w3 & Hurl & Hb). apply lift_Ok in Hurl as [Hurl ->].
      apply io_bind_Ok in Hb as (bytes & w3 & Hbytes & Hb). apply lift_Ok in Hbytes as [Hbytes ->].
      apply io_bind_Ok in Hb as (u'' & w3 & H1 & Hb). apply store_Ok in H1 as [Hdq ->].
      apply mret_Ok in Hb as [-> ->].
      rewrite Hsame in Hdq by (by apply with_suffix_length in Hq). eauto 10.
    - apply io_bind_Ok in Hbody as (again & w3 & Hn & Hb).
      pose proof (needs_content_Ok _ _ _ _ _ _ Hn) as ->.
      apply io_bind_Ok in Hb as (u'' & w3 & H1 & Hb).
      apply mret_Ok in Hb as [-> ->].
      split; [done|]. exists again. split; [done|].
      destruct again.
      + destruct u''. apply fetch_content_Ok in H1 as (s & Hs & Hu & Hdt & ->).
        rewrite Hsame in Hdt by done. eauto 10.
      + by apply mret_Ok in H1 as [_ ->]. }
  exists p, info, data, type, d, final, w2. cbn zeta.
  do 6 (split; [done|]). split; [|exact Hbody'].
  unfold utime in H. destruct (files w2 !! final) as [f|] eqn:Ef; [by injection H as <-|].
  destruct (names_dir w2 final) eqn:Edf; [|discriminate]. injection H as <-.
  split; [|done].
  destruct (eq_str type "bookmark").
  - destruct Hbody' as (url & bytes & _ & _ & _ & _ & ->).
    by rewrite files_put, lookup_insert_eq in Ef.
  - destruct Hbody' as (-> & again & _ & Hw2). destruct again.
    + destruct Hw2 as (s & _ & _ & _ & ->). by rewrite files_put, lookup_insert_eq in Ef.
    + subst w2. by rewrite Hsame in Edf.
Qed.

(** C10.  For an item that is not a bookmark and whose declared size is 0,
    [save] asks for no content when the content file is already there,
    whatever the size of that file, and leaves its contents as they were:
    a declared size of 0 is as falsy as [None] in the test.  This holds
    whether or not [save] goes on to return. *)
Theorem size_zero_skips lib api self path w p type f :
  destination lib self path = Ok p ->
  getattr self "type" = Ok type -> eq_str type "bookmark" = false ->
  getattr self "size" = Ok (VInt 0) ->
  files w !! Path_absolute (cwd w) p = Some f ->
  downloads (snd (save lib api self path w)) = downloads w /\
  exists f', files (snd (save lib api self path w)) !! Path_absolute (cwd w) p = Some f'
             /\ contents f' = contents f.
Proof.
  intros Hp Htype Hbook Hsize Hf.
  destruct (save lib api self path w) as [r w'] eqn:H. cbn [snd].
  unfold save in H. run H. unfold lift at 1 in H. rewrite Hp in H. cbv beta iota in H.
  run H. unfold getcwd at 1 in H. cbv beta iota zeta in H.
  set (target := Path_absolute (cwd w) p) in *.
  run H. unfold mkdir_parents at 1 in H.
  destruct (existsb _ _); [stop H|]. cbv beta iota in H.
  run H. unfold lift at 1 in H.
  destruct (with_suffix target ".info.json") as [info|e] eqn:Hinfo; [|stop H].
  cbv beta iota in H.
  pose proof (with_suffix_info_ne _ _ Hinfo) as Hne.
  run H. unfold store at 1 in H.
  destruct (names_dir w info); [stop H|]. cbv beta iota in H.
  run H. unfold lift at 1 in H.
  destruct (getattr self "_data") as [data|e]; cbv beta iota in H;
    [|injection H as <- <-; simpl; rewrite lookup_insert_ne by done; eauto].
  run H. unfold store at 1 in H.
  destruct (names_dir (put info "" w) info); cbv beta iota in H;
    [injection H as <- <-; simpl; rewrite lookup_insert_ne by done; eauto|].
  run H. unfold lift at 1 in H. rewrite Htype in H. cbv beta iota in H.
  run H. rewrite Hbook in H.
  run H.
  remember (put info (dumps lib data) (put info "" w)) as w1 eqn:Hw1.
  assert (Hf1 : files w1 !! target = Some f).
  { rewrite Hw1, !files_put, !lookup_insert_ne by done. done. }
  assert (Hd1 : downloads w1 = downloads w) by (by rewrite Hw1).
  assert (Hn : needs_content lib self target w1 = (Ok false, w1)).
  { by rewrite needs_content_run, Hf1, Hsize. }
  rewrite Hn in H. cbv beta iota in H. run H.
  change ((mret () : io unit) w1) with (Ok (), w1) in H. cbv beta iota in H.
  change ((mret target : io _) w1) with (Ok target, w1) in H. cbv beta iota in H.
  run H. unfold lift at 1 in H.
  destruct (getattr self "uploaded") as [uploaded|e]; [|stop H].
  cbv beta iota in H.
  run H. unfold lift at 1 in H.
  destruct (as_datetime uploaded) as [d|e]; [|stop H].
  cbv beta iota in H.
  unfold utime in H. rewrite Hf1 in H. injection H as <- <-. simpl.
  rewrite lookup_insert_eq. eauto.
Qed.

Lemma size_zero_skips_witness :
  downloads (snd (save demo_lib demo_service demo_drop_0
                       (Some "2021/5/3/7--a--image--my photo.png") demo_saved))
  = downloads demo_saved /\
  exists f', files (snd (save demo_lib demo_service demo_drop_0
                              (Some "2021/5/3/7--a--image--my photo.png")
                              demo_saved)) !! demo_target = Some f'
             /\ contents f' = "hello".
Proof.
  exact (size_zero_skips demo_lib demo_service demo_drop_0
           (Some "2021/5/3/7--a--image--my photo.png")
           demo_saved "2021/5/3/7--a--image--my photo.png" (VStr "image")
           (mk_file "hello" 1620036900 1620036900)
           ltac:(vm_compute; reflexivity) ltac:(vm_compute; reflexivity) eq_refl
           ltac:(vm_compute; reflexivity) ltac:(vm_compute; reflexivity)).
Defined.

(** The files of the machine after a [save] that returns, seen from the
    metadata file: it holds the serialised [_data], stamped with the time
    of the write. *)
Lemma save_Ok_info lib api self path w w' :
  save lib api self path w = (Ok (), w') ->
  exists p info data f,
    destination lib self path = Ok p /\
    with_suffix (Path_absolute (cwd w) p) ".info.json" = Ok info /\
    getattr self "_data" = Ok data /\
    files w' !! info = Some f /\
    contents f = dumps lib data /\
    st_mtime f = clock w.
Proof.
  intros H. apply save_Ok in H
    as (p & info & data & type & d & final & w2 & Hp & Hinfo & _ & Hdata & Htype
        & Hup & Hw' & Hbody).
  exists p, info, data.
  destruct (files_put_eq info (dumps lib data) (put info "" w)) as (g & Hg & Hc & Hm).
  exists g. do 3 (split; [done|]). split; [|done].
  pose proof (with_suffix_info_ne _ _ Hinfo) as Hne.
  assert (Hw2 : files w2 !! info = Some g).
  { destruct (eq_str type "bookmark").
    - destruct Hbody as (url & bytes & Hweb & _ & _ & _ & ->).
      pose proof (with_suffix_info_webloc _ _ _ Hinfo Hweb) as Hne'.
      by rewrite files_put_ne.
    - destruct Hbody as (-> & again & _ & Hw2).
      destruct again; [|by subst w2].
      destruct Hw2 as (s & _ & _ & _ & ->).
      rewrite files_put_ne by done. rewrite files_requested.
      by rewrite files_put_ne. }
  assert (Hfi : final <> info).
  { destruct (eq_str type "bookmark").
    - destruct Hbody as (url & bytes & Hweb & _). intros ->.
      by apply (with_suffix_info_webloc _ _ _ Hinfo Hweb).
    - destruct Hbody as (-> & _). done. }
  destruct (files w2 !! final) as [f|]; [|by destruct Hw' as [_ ->]].
  subst w'. by rewrite files_touch_ne.
Qed.

Lemma demo_save :
  save demo_lib demo_service demo_drop None demo_world = (Ok (), demo_saved).
Proof. vm_cast_no_check (eq_refl (Ok (), demo_saved)). Qed.

Lemma demo_saved_files :
  (contents <$> files demo_saved !! demo_info) = Some (dumps demo_lib (VDict demo_processed)) /\
  (st_mtime <$> files demo_saved !! demo_info) = Some 1700000000 /\
  files demo_saved !! (parent demo_target ++ ["7--a--image--my photo.png.info.json"]) = None /\
  files demo_saved !! demo_target = Some (mk_file "hello" 1620036900 1620036900) /\
  downloads demo_saved = [VStr "https://f.cl.ly/photo.png"].
Proof.
  repeat split; vm_compute; reflexivity.
Qed.

(** C3, as stated, fails: the metadata file of a destination named
    [... photo.png] is [... photo.info.json]; nothing is written under the
    name with [.info.json] appended. *)
Lemma info_json_replaces_extension :
  save demo_lib demo_service demo_drop None demo_world = (Ok (), demo_saved) /\
  Path_absolute (cwd demo_world) "2021/5/3/7--a--image--my photo.png" = demo_target /\
  files demo_saved !! (parent demo_target ++ [String.append (name demo_target) ".info.json"])
    = None /\
  (contents <$> files demo_saved !! (parent demo_target ++ ["7--a--image--my photo.info.json"]))
    = Some (dumps demo_lib (VDict demo_processed)).
Proof.
  split; [exact demo_save|]. repeat split; vm_compute; reflexivity.
Qed.

(** C3, amended.  A [save] that returns has written the serialised [_data]
    (sorted keys, indented) to the destination with its last suffix, if it
    has one, replaced by [.info.json], whatever was there before; the
    suffix is appended only to a name that has none. *)
Theorem save_writes_info_json lib api self path w w' :
  save lib api self path w = (Ok (), w') ->
  exists p data f,
    let target := Path_absolute (cwd w) p in
    let info := parent target ++ [String.append (stem target) ".info.json"] in
    destination lib self path = Ok p /\
    getattr self "_data" = Ok data /\
    with_suffix target ".info.json" = Ok info /\
    files w' !! info = Some f /\
    contents f = dumps lib data /\
    (suffix target = "" -> stem target = name target).
Proof.
  intros H. apply save_Ok_info in H as (p & info & data & f & Hp & Hinfo & Hdata & Hf & Hc & _).
  exists p, data, f. cbn zeta.
  rewrite with_suffix_stem in Hinfo.
  destruct (String.eqb (name (Path_absolute (cwd w) p)) "") eqn:E; [done|].
  injection Hinfo as <-.
  rewrite with_suffix_stem, E.
  do 5 (split; [done|]). intros Hs. unfold stem. by rewrite Hs.
Qed.

Lemma save_writes_info_json_witness :
  exists f, files demo_saved !! demo_info = Some f /\
            contents f = dumps demo_lib (VDict demo_processed).
Proof.
  destruct (save_writes_info_json _ _ _ _ _ _ demo_save)
    as (p & data & f & Hp & Hdata & _ & Hf & Hc & _).
  injection Hp as <-. injection Hdata as <-.
  exists f. split; [exact Hf|exact Hc].
Defined.




Lemma demo_bookmark_save :
  save demo_lib demo_service demo_bookmark (Some "links/x") demo_world
  = (Ok (), demo_bookmark_saved).
Proof. vm_cast_no_check (eq_refl (Ok (), demo_bookmark_saved)). Qed.

(** C8.  A [save] that returns, to a destination without a [..] part, has
    for a bookmark written the property list of [{URL: target}] to the
    destination with the suffix [.webloc] and asked for no content; for any
    other type whose content URI is set, when the destination is no
    directory and the test for a download holds (no file there, or one
    whose size is not the declared one), it has asked for the content once
    and written it to the destination.  In both cases no other file than
    that one and the metadata file is touched. *)
Theorem save_bookmark_or_content lib api self path w w' :
  save lib api self path w = (Ok (), w') ->
  exists p type info,
    let target := Path_absolute (cwd w) p in
    destination lib self path = Ok p /\
    getattr self "type" = Ok type /\
    with_suffix target ".info.json" = Ok info /\
    (~ In ".." target ->
     (eq_str type "bookmark" = true ->
      exists webloc url f,
        with_suffix target ".webloc" = Ok webloc /\
        getattr self "target" = Ok url /\
        files w' !! webloc = Some f /\
        plist lib (VDict [("URL", url)]) = Ok (contents f) /\
        downloads w' = downloads w /\
        forall q, q <> info -> q <> webloc -> files w' !! q = files w !! q) /\
     (eq_str type "bookmark" = false ->
      forall uri, getattr self "content" = Ok uri -> uri <> VNone ->
      is_dir w target = false ->
      match files w !! target with
      | None => True
      | Some f0 => exists size, getattr self "size" = Ok size /\ truthy size = true /\
                     ne_int (Z.of_nat (String.length (contents f0))) size = true
      end ->
      exists f,
        files w' !! target = Some f /\
        contents f = raw (session_get api (Href uri)) /\
        downloads w' = uri :: downloads w /\
        forall q, q <> info -> q <> target -> files w' !! q = files w !! q)).
Proof.
  intros H. apply save_Ok in H
    as (p & info & data & type & d & final & w2 & Hp & Hinfo & Hdi & Hdata & Htype
        & Hup & Hw' & Hbody).
  exists p, type, info. cbn zeta. do 3 (split; [done|]).
  pose proof (with_suffix_info_ne _ _ Hinfo) as Hne.
  intros Hres.
  destruct (eq_str type "bookmark"); split; try done.
  - intros _. destruct Hbody as (url & bytes & Hweb & Hurl & Hplist & Hdw & ->).
    rewrite files_put, lookup_insert_eq in Hw'. subst w'.
    exists final, url. eexists.
    do 2 (split; [done|]). split; [apply files_touch_eq|].
    do 2 (split; [done|]).
    intros q Hq Hq'. by rewrite files_touch_ne, !files_put_ne.
  - intros _ uri Huri _ Hdir Hstale. destruct Hbody as (-> & again & Hn & Hw2).
    rewrite needs_content_run, !files_put_ne in Hn by done.
    rewrite !names_dir_put in Hn by (by rewrite (with_suffix_length _ _ _ Hinfo)).
    rewrite (names_dir_resolved _ _ Hres), Hdir in Hn.
    assert (again = true) as ->.
    { destruct (files w !! Path_absolute (cwd w) p) as [f0|]; [|by injection Hn].
      destruct Hstale as (size & Hsize & Ht & Hs). rewrite Hsize in Hn.
      injection Hn as <-. by rewrite Ht, Hs. }
    destruct Hw2 as (s & Hs & _ & _ & ->). rewrite Huri in Hs. injection Hs as ->.
    rewrite files_put, lookup_insert_eq in Hw'. subst w'.
    eexists. split; [apply files_touch_eq|].
    do 2 (split; [done|]).
    intros q Hq Hq'. rewrite files_touch_ne, files_put_ne by done.
    rewrite files_requested. by rewrite !files_put_ne.
Qed.

Lemma save_bookmark_or_content_witness :
  (exists f, files demo_bookmark_saved !! ["home"; "me"; "links"; "x.webloc"] = Some f /\
             plist demo_lib (VDict [("URL", VStr "https://example.com/x")]) = Ok (contents f) /\
             downloads demo_bookmark_saved = []) /\
  (exists f, files demo_saved !! demo_target = Some f /\ contents f = "hello" /\
             downloads demo_saved = [VStr "https://f.cl.ly/photo.png"]).
Proof.
  assert (Hplain : forall p : list string,
            forallb (fun part => negb (String.eqb part "..")) p = true -> ~ In ".." p).
  { intros p H Hin. apply (proj1 (forallb_forall _ _) H) in Hin. discriminate. }
  split.
  - destruct (save_bookmark_or_content _ _ _ _ _ _ demo_bookmark_save)
      as (p & type & info & Hp & Htype & _ & Hboth).
    injection Htype as <-. injection Hp as <-.
    destruct Hboth as [Hbook _]; [apply Hplain; reflexivity|].
    destruct (Hbook eq_refl) as (webloc & url & f & Hweb & Hurl & Hf & Hplist & Hd & _).
    injection Hweb as <-. injection Hurl as <-.
    exists f. split; [exact Hf|]. split; [exact Hplist|exact Hd].
  - destruct (save_bookmark_or_content _ _ _ _ _ _ demo_save)
      as (p & type & info & Hp & Htype & _ & Hboth).
    injection Htype as <-. injection Hp as <-.
    destruct Hboth as [_ Hcontent]; [apply Hplain; reflexivity|].
    destruct (Hcontent eq_refl (VStr "https://f.cl.ly/photo.png") eq_refl
                ltac:(discriminate) ltac:(vm_compute; reflexivity) I)
      as (f & Hf & Hc & Hd & _).
    exists f. split; [exact Hf|]. split; [exact Hc|exact Hd].
Defined.








(** * Further properties *)

(** ** The enumeration, its failures and its invariants *)

(** X1.  In the enumeration a detail that answers OK but whose record does
    not normalise (a timestamp that matches neither format) is treated like
    a failed fetch: the [ValueError] of [strptime] is caught by the same
    [except] clause, the raw record of the listing is yielded and the loop
    goes on with the same counter, while construction by slug raises. *)
Theorem enumeration_swallows_normalisation_error api result record rest slug fields c e :
  py_getitem record "slug" = Ok slug ->
  status_code (session_get api (DropURI slug)) = 200 ->
  json (session_get api (DropURI slug)) = VDict fields ->
  _process fields = Raise e ->
  Drop_init api slug = Raise e /\
  is_ValueError e = true /\
  page_loop api result (record :: rest) c =
    (YRecord record :: fst (page_loop api result rest c),
     snd (page_loop api result rest c)).
Proof.
  intros Hslug Hstatus Hjson Hp.
  assert (Hd : Drop_init api slug = Raise e).
  { unfold Drop_init. rewrite Hstatus, Hjson. simpl. by rewrite Hp. }
  destruct (process_raises _ _ Hp) as (data & format & ->).
  split; [done|]. split; [done|].
  by apply (page_loop_degraded _ _ _ _ _ _ _ Hslug Hd).
Qed.

Lemma enumeration_swallows_normalisation_error_witness :
  let api := demo_api_odd [["a"; "old"; "b"]; []] in
  client_getitem api "old"
    = Raise (ValueError (StrptimeError "yesterday" "%Y-%m-%d")) /\
  map summary (fst (client_iter 2 api)) =
    [("a", Some (VInt 0, VInt 4)); ("old", None); ("b", Some (VInt 1, VInt 4))].
Proof.
  intros api.
  set (page := demo_page ["a"; "old"; "b"] (Some "1")).
  destruct (enumeration_swallows_normalisation_error api page (demo_record "old")
              [demo_record "b"] (VStr "old")
              [("slug", VStr "old"); ("created_at", VStr "yesterday")] 1
              (ValueError (StrptimeError "yesterday" "%Y-%m-%d"))
              eq_refl eq_refl eq_refl ltac:(vm_compute; reflexivity))
    as (Hd & _ & Hloop).
  split; [exact Hd|].
  vm_compute. reflexivity.
Defined.

(** X2.  A record of the listing without a [slug] key (or one that is not
    a mapping) ends the enumeration with the [KeyError] (or [TypeError]) of
    the subscript: what the page yielded before it stays yielded, the
    record itself and everything after it is not. *)
Theorem missing_slug_aborts_enumeration api result before record after ys c c' e :
  page_loop api result before c = (ys, Ok c') ->
  py_getitem record "slug" = Raise e ->
  page_loop api result (before ++ record :: after) c = (ys, Raise e) /\
  (forall fields, record = VDict fields -> e = KeyError "slug") /\
  (forall fuel link data,
     next_href result = Ok link -> truthy link = true ->
     py_getitem result "data" = Ok data ->
     py_iter data = Ok (before ++ record :: after) ->
     pages (S fuel) api result c = (ys, Raised e)).
Proof.
  intros Hb He.
  assert (Hloop : page_loop api result (before ++ record :: after) c = (ys, Raise e)).
  { rewrite page_loop_app, Hb. simpl. rewrite He. simpl.
    assert (is_ValueError e = false) as ->.
    { destruct record; simpl in He; try (by injection He as <-).
      destruct (dict_get d "slug"); [done|]. by injection He as <-. }
    by rewrite app_nil_r. }
  split; [done|]. split.
  - intros fields ->. simpl in He. destruct (dict_get fields "slug"); [done|].
    by injection He as <-.
  - intros fuel link data Hn Ht Hd Hi. simpl. rewrite Hn, Ht, Hd. simpl.
    by rewrite Hi, Hloop.
Qed.

Lemma missing_slug_aborts_enumeration_witness :
  let api := demo_api [["a"]] in
  let page := VDict [("data", VList [demo_record "a"; VDict [("id", VInt 9)]; demo_record "b"]);
                     ("meta", VDict [("count", VInt 3)]);
                     ("links", VDict [("next_url", VDict [("href", VStr "1")])])] in
  map summary (fst (pages 3 api page 0)) = [("a", Some (VInt 0, VInt 3))] /\
  snd (pages 3 api page 0) = Raised (KeyError "slug").
Proof.
  intros api page.
  assert (Hb : page_loop api page [demo_record "a"] 0
               = (fst (page_loop api page [demo_record "a"] 0), Ok 1))
    by (vm_compute; reflexivity).
  destruct (missing_slug_aborts_enumeration api page [demo_record "a"]
              (VDict [("id", VInt 9)]) [demo_record "b"] _ 0 1 (KeyError "slug")
              Hb eq_refl) as (_ & _ & Hpages).
  rewrite (Hpages 2%nat (VStr "1")
             (VList [demo_record "a"; VDict [("id", VInt 9)]; demo_record "b"])
             eq_refl eq_refl eq_refl eq_refl).
  split; [vm_compute; reflexivity|reflexivity].
Defined.

(** What a page yields: raw records are mappings with a slug, taken from
    the page; drops carry the count of the page and are numbered from the
    counter on, one by one, whatever raw records lie between them. *)
Lemma page_loop_yields api result records : forall c ys r,
  page_loop api result records c = (ys, r) ->
  (forall y, In y ys ->
     match y with
     | YRecord record =>
         In record records /\
         exists fields slug, record = VDict fields /\ dict_get fields "slug" = Some slug
     | YDrop d =>
         exists total,
           (meta ← py_getitem result "meta"; py_getitem meta "count") = Ok total /\
           d !! "total" = Some total
     end) /\
  (forall (j : nat) d, drops ys !! j = Some d -> d !! "index" = Some (VInt (c + Z.of_nat j))) /\
  (forall c', r = Ok c' -> c' = c + Z.of_nat (List.length (drops ys))).
Proof.
  induction records as [|record rest IH]; intros c ys r; simpl.
  - intros [= <- <-]. split; [by intros y []|]. split; [by intros j d|].
    intros c' [= <-]. simpl. lia.
  - destruct (py_getitem record "slug" ≫= _) as [d|e] eqn:Hd.
    + destruct (py_getitem result "meta" ≫= _) as [total|e] eqn:Hm.
      * destruct (page_loop api result rest (c + 1)) as [ys' r'] eqn:Hrest.
        intros [= <- <-]. destruct (IH _ _ _ Hrest) as (Hy & Hi & Hc).
        split; [|split].
        -- intros y [<-|Hin].
           ++ exists total. by rewrite lookup_insert_eq.
           ++ specialize (Hy y Hin). destruct y; [done|].
              destruct Hy as [Hin' Hy]. split; [by right|done].
        -- intros [|j] d'; simpl.
           ++ intros [= <-]. rewrite lookup_insert_ne by done.
              rewrite lookup_insert_eq. by rewrite Z.add_0_r.
           ++ intros Hj. rewrite (Hi j d' Hj). do 2 f_equal. lia.
        -- intros c' Hr. rewrite (Hc c' Hr). simpl. lia.
      * intros [= <- <-]. split; [by intros y []|]. split; [by intros j d'|done].
    + destruct (is_ValueError e) eqn:He.
      * destruct (page_loop api result rest c) as [ys' r'] eqn:Hrest.
        intros [= <- <-]. destruct (IH _ _ _ Hrest) as (Hy & Hi & Hc).
        split; [|split; [exact Hi|exact Hc]].
        intros y [<-|Hin].
        -- split; [by left|].
           destruct record; simpl in Hd; try (injection Hd as <-; discriminate).
           destruct (dict_get d "slug") as [slug|] eqn:Hs; [eauto|].
           simpl in Hd. injection Hd as <-. discriminate.
        -- specialize (Hy y Hin). destruct y; [done|].
           destruct Hy as [Hin' Hy]. split; [by right|done].
      * intros [= <- <-]. split; [by intros y []|]. split; [by intros j d'|done].
Qed.

Lemma drops_app ys zs : drops (ys ++ zs) = drops ys ++ drops zs.
Proof.
  induction ys as [|[d|r] ys IH]; simpl; [done| |done]. by rewrite IH.
Qed.

Lemma pages_yields fuel : forall api result c,
  (forall (j : nat) d, drops (fst (pages fuel api result c)) !! j = Some d ->
     d !! "index" = Some (VInt (c + Z.of_nat j)) /\ is_Some (d !! "total")) /\
  (forall record, In (YRecord record) (fst (pages fuel api result c)) ->
     exists fields slug, record = VDict fields /\ dict_get fields "slug" = Some slug).
Proof.
  induction fuel as [|fuel IH]; intros api result c; simpl.
  - split; [by intros j d|by intros record []].
  - destruct (next_href result) as [href|e]; [|split; [by intros j d|by intros record []]].
    destruct (truthy href); [|split; [by intros j d|by intros record []]].
    destruct (py_getitem result "data" ≫= py_iter) as [records|e];
      [|split; [by intros j d|by intros record []]].
    destruct (page_loop api result records c) as [ys r] eqn:Hloop.
    destruct (page_loop_yields _ _ _ _ _ _ Hloop) as (Hy & Hi & Hc).
    assert (Hys : (forall (j : nat) d, drops ys !! j = Some d ->
                     d !! "index" = Some (VInt (c + Z.of_nat j)) /\ is_Some (d !! "total")) /\
                  (forall record, In (YRecord record) ys ->
                     exists fields slug, record = VDict fields /\
                                         dict_get fields "slug" = Some slug)).
    { split.
      - intros j d Hj. split; [by apply Hi|].
        assert (Hin : In (YDrop d) ys).
        { clear -Hj. revert j Hj. induction ys as [|[d'|r'] ys IH]; intros j; simpl; [done| |].
          - destruct j; simpl; [intros [= <-]; by left|]. intros H. right. by eapply IH.
          - intros H. right. by eapply IH. }
        destruct (Hy _ Hin) as (total & _ & ->). eauto.
      - intros record Hin. by destruct (Hy _ Hin) as [_ H]. }
    destruct r as [c'|e]; [|exact Hys].
    destruct (py_getitem result "links" ≫= _) as [link|e]; [|exact Hys].
    specialize (IH api (json (session_get api (Href link))) c').
    destruct (pages fuel api _ c') as [zs e'] eqn:Hrest. simpl in *.
    destruct IH as [IHi IHr]. destruct Hys as [Hysi Hysr]. split.
    + intros j d. rewrite drops_app. intros Hj.
      apply lookup_app_Some in Hj as [Hj|[Hge Hj]]; [by apply Hysi|].
      destruct (IHi _ _ Hj) as [-> Ht]. split; [|done].
      do 2 f_equal. rewrite (Hc c' eq_refl). lia.
    + intros record Hin. apply in_app_or in Hin as [Hin|Hin]; auto.
Qed.

(** X3.  The drops the enumeration yields are numbered from 0 on, one by
    one in the order yielded, also across pages and whatever raw records
    are yielded between them (a raw record uses up no number), and each has
    its [total] set. *)
Theorem enumeration_numbers_drops fuel api (j : nat) d :
  drops (fst (client_iter fuel api)) !! j = Some d ->
  d !! "index" = Some (VInt (Z.of_nat j)) /\ is_Some (d !! "total").
Proof.
  intros H. by destruct (proj1 (pages_yields fuel api _ 0) j d H) as [-> Ht].
Qed.

Lemma enumeration_numbers_drops_witness :
  exists d, drops (fst (client_iter 3 (demo_api [["a"; "bad"; "b"]; ["c"]; ["d"]]))) !! 2%nat
            = Some d /\
            d !! "index" = Some (VInt 2) /\ is_Some (d !! "total").
Proof.
  destruct (lookup_lt_is_Some_2
              (drops (fst (client_iter 3 (demo_api [["a"; "bad"; "b"]; ["c"]; ["d"]])))) 2)
    as [d E].
  { apply Nat.ltb_lt. vm_compute. reflexivity. }
  exists d. split; [exact E|]. exact (enumeration_numbers_drops 3 _ 2 d E).
Defined.

(** X4.  Whatever the enumeration yields in place of a drop is a mapping
    that has a [slug] key: a record the slug of which cannot be read is
    never yielded (it ends the enumeration instead). *)
Theorem enumeration_raw_records_are_mappings fuel api record :
  In (YRecord record) (fst (client_iter fuel api)) ->
  exists fields slug, record = VDict fields /\ dict_get fields "slug" = Some slug.
Proof. apply pages_yields. Qed.

Lemma enumeration_raw_records_are_mappings_witness :
  exists fields slug,
    demo_record "bad" = VDict fields /\ dict_get fields "slug" = Some slug.
Proof.
  apply (enumeration_raw_records_are_mappings 3
           (demo_api [["a"; "bad"; "b"]; ["c"]; ["d"]])).
  apply (nth_error_In _ 1). vm_compute. reflexivity.
Defined.

(** ** Construction *)

(** X5.  A drop constructed by slug holds the normalised record of the
    response as [_data] and has every attribute of the mapping table set
    (to [None] where the record has nothing); its [slug] is the one the
    response gives, not the one asked for, and is [None] when the response
    has none; [index] and [total] are not set by construction. *)
Theorem constructed_drop_is_hydrated api slug d :
  Drop_init api slug = Ok d ->
  exists fields data',
    json (session_get api (DropURI slug)) = VDict fields /\
    _process fields = Ok data' /\
    d !! "_data" = Some (VDict data') /\
    (forall origin attr, In (origin, attr) _json_map -> is_Some (d !! attr)) /\
    d !! "slug" = Some (default VNone (dict_get fields "slug")) /\
    d !! "index" = None /\ d !! "total" = None.
Proof.
  unfold Drop_init.
  destruct (negb _); [discriminate|].
  destruct (json (session_get api (DropURI slug))) as [| | | | | |fields]; try discriminate.
  intros H. simpl in H. apply exc_bind_Ok in H as (data' & Hp & [= <-]).
  exists fields, data'. do 2 (split; [done|]).
  split; [by rewrite apply_map_lookup; simpl; rewrite lookup_insert_eq|].
  split; [intros origin attr Hin; by rewrite (apply_map_entry _ _ _ _ Hin)|].
  split; [|split; by rewrite apply_map_lookup].
  rewrite (apply_map_entry _ _ (One "slug") "slug") by (simpl; tauto). f_equal.
  pose proof (process_get _ _ "slug" Hp) as Hg. simpl.
  destruct (dict_get fields "slug") as [v|].
  - destruct Hg as (v' & Hv & ->).
    assert (v' = v) as -> by (destruct v; simpl in Hv; congruence).
    by destruct v.
  - by rewrite Hg.
Qed.

Lemma constructed_drop_is_hydrated_witness :
  demo_drop !! "slug" = Some (VStr "a") /\
  demo_drop !! "target" = Some VNone /\
  demo_drop !! "index" = None.
Proof.
  destruct (constructed_drop_is_hydrated demo_service (VStr "a") demo_drop
              (proj1 demo_items))
    as (fields & data' & Hjson & _ & _ & Hall & Hslug & Hindex & _).
  injection Hjson as <-.
  split; [exact Hslug|]. split; [|exact Hindex].
  destruct (Hall (One "redirect_url") "target" ltac:(simpl; tauto)) as [v Hv].
  rewrite Hv. f_equal. 
  assert (H : demo_drop !! "target" = Some VNone) by (vm_compute; reflexivity).
  rewrite Hv in H. by injection H.
Defined.

(** ** The pre-processing pass, further *)

Lemma process_field_other key v :
  (forall s, v <> VStr s) \/
  (key <> "file_name" /\ (endswith key "_at" = false \/ v = VStr "")) ->
  process_field key v = Ok v.
Proof.
  intros [H|[Hk H]].
  - destruct v; try done. by destruct (H s).
  - destruct v; try done. simpl.
    destruct (String.eqb_spec key "file_name"); [done|].
    destruct H as [-> | [= ->]]; [done|]. by rewrite andb_false_r.
Qed.

(** X6.  The pre-processing pass keeps the keys of the record and their
    order, and changes no value but strings under [file_name] and non-empty
    strings under keys ending in [_at]. *)
Theorem process_touches_only_its_fields data data' :
  _process data = Ok data' ->
  map fst data' = map fst data /\
  forall key v, dict_get data key = Some v ->
    (forall s, v <> VStr s) \/
    (key <> "file_name" /\ (endswith key "_at" = false \/ v = VStr "")) ->
    dict_get data' key = Some v.
Proof.
  intros Hp. split.
  - revert data' Hp. induction data as [|[k v] rest IH]; intros data'; simpl.
    + by intros [= <-].
    + intros H. apply exc_bind_Ok in H as (v' & _ & H).
      apply exc_bind_Ok in H as (rest' & Hr & [= <-]). simpl. f_equal. by apply IH.
  - intros key v Hg Hv. pose proof (process_get _ _ key Hp) as H. rewrite Hg in H.
    destruct H as (v' & Hv' & ->). rewrite process_field_other in Hv' by done.
    by injection Hv' as <-.
Qed.

Lemma process_touches_only_its_fields_witness :
  map fst demo_processed = map fst (demo_fields "a") /\
  dict_get demo_processed "name" = Some (VStr "photo.png").
Proof.
  destruct (process_touches_only_its_fields _ _ demo_process) as [Hk Hv].
  split; [exact Hk|].
  apply Hv; [reflexivity|]. right. split; [discriminate|]. by left.
Defined.

Lemma process_field_again key v v' :
  process_field key v = Ok v' ->
  process_field key v' = Ok (snd (decode_file_name (key, v'))).
Proof.
  destruct v; simpl; try (intros [= <-]; reflexivity).
  destruct (String.eqb_spec key "file_name") as [->|Hk].
  - intros [= <-]. reflexivity.
  - destruct (endswith key "_at" && _) eqn:E.
    + destruct (strptime (rstrip "Z" s) _) as [d|e]; [by intros [= <-]|].
      destruct (is_ValueError e); [|discriminate].
      destruct (strptime s _); simpl; [by intros [= <-]|discriminate].
    + intros [= <-]. simpl. destruct (String.eqb_spec key "file_name"); [done|].
      by rewrite E.
Qed.

(** X7.  Normalising a record that is already normalised never fails, and
    changes nothing but the [file_name] entry, which is percent-decoded a
    second time: timestamps are datetimes by then and are passed over. *)
Theorem process_again data data' :
  _process data = Ok data' ->
  _process data' = Ok (map decode_file_name data').
Proof.
  revert data'. induction data as [|[k v] rest IH]; intros data'; simpl.
  - by intros [= <-].
  - intros H. apply exc_bind_Ok in H as (v' & Hv & H).
    apply exc_bind_Ok in H as (rest' & Hr & [= <-]). simpl.
    rewrite (process_field_again _ _ _ Hv). simpl. rewrite (IH _ Hr). simpl.
    do 2 f_equal. destruct v'; try done. simpl. by destruct (String.eqb k "file_name").
Qed.

Lemma process_again_witness :
  _process demo_processed = Ok demo_processed.
Proof. exact (process_again _ _ demo_process). Defined.

Lemma strptime_valid data format d :
  strptime data format = Ok d -> valid_datetime d = true.
Proof.
  unfold strptime. destruct (pattern format); [|done].
  destruct (pat_match _ _) as [|[gs rest] ?]; [done|].
  destruct (negb _); [done|].
  destruct (valid_datetime _) eqn:E; [|done]. by intros [= <-].
Qed.

(** X9.  The [uploaded] attribute follows [created_at]: a non-empty string
    gives a datetime that exists in the calendar (or construction fails),
    an empty string is kept as the empty string, neither a datetime nor
    [None], and an absent or null [created_at] gives [None]. *)
Theorem uploaded_of_created_at (self : drop) data d :
  _apply self (VDict data) = Ok d ->
  (forall s, dict_get data "created_at" = Some (VStr s) -> s <> "" ->
     exists dt, d !! "uploaded" = Some (VDatetime dt) /\ valid_datetime dt = true) /\
  (dict_get data "created_at" = Some (VStr "") -> d !! "uploaded" = Some (VStr "")) /\
  (absent_or_null data "created_at" -> d !! "uploaded" = Some VNone).
Proof.
  intros H.
  destruct (apply_candidates _ _ _ (One "created_at") "uploaded" H ltac:(simpl; tauto))
    as (H1 & H2 & _).
  split; [|split].
  - intros s Hs Hne.
    destruct (H1 [] "created_at" [] (VStr s) eq_refl ltac:(simpl; tauto) Hs
                ltac:(discriminate)) as (v' & Hv & Hd).
    rewrite process_field_timestamp in Hv by done.
    destruct (strptime (rstrip "Z" s) _) as [dt|e] eqn:E1.
    + injection Hv as <-. exists dt. split; [done|]. by eapply strptime_valid.
    + destruct (strptime s _) as [dt|e'] eqn:E2; [|discriminate].
      injection Hv as <-. exists dt. split; [done|]. by eapply strptime_valid.
  - intros Hs.
    destruct (H1 [] "created_at" [] (VStr "") eq_refl ltac:(simpl; tauto) Hs
                ltac:(discriminate)) as (v' & Hv & Hd).
    by injection Hv as <-.
  - intros Hs. apply H2. by intros k [<-|[]].
Qed.

Lemma uploaded_of_created_at_witness :
  exists dt, demo_drop !! "uploaded" = Some (VDatetime dt) /\ valid_datetime dt = true.
Proof.
  destruct (uploaded_of_created_at _ _ _ (demo_apply {["slug" := VStr "a"]})) as (H & _ & _).
  exact (H "2021-05-03T10:15:00Z" eq_refl ltac:(discriminate)).
Defined.

(** ** [save], when it fails *)

Lemma getattr_raises (self : drop) attr e : getattr self attr = Raise e -> e = AttributeError.
Proof.
  unfold getattr. destruct (self !! attr); [done|].
  destruct (String.eqb attr "favourite"); [done|]. by intros [= <-].
Qed.

Lemma storage_needs_datetime lib (self : drop) :
  (forall d, getattr self "uploaded" <> Ok (VDatetime d)) ->
  _storage lib self = Raise AttributeError.
Proof.
  intros H. unfold _storage.
  destruct (getattr self "uploaded") as [v|e] eqn:E; simpl.
  - destruct v; try done. by destruct (H d).
  - by rewrite (getattr_raises _ _ _ E).
Qed.

(** X10.  Without a destination given, [save] of a drop whose [uploaded]
    is not a datetime (a record without [created_at], or with an empty one)
    raises [AttributeError] while the storage name is formatted, before
    anything is written or asked for. *)
Theorem save_default_path_needs_upload_time lib api (self : drop) w :
  (forall d, getattr self "uploaded" <> Ok (VDatetime d)) ->
  save lib api self None w = (Raise AttributeError, w) /\
  save lib api self (Some "") w = (Raise AttributeError, w).
Proof.
  intros H. unfold save, destination. simpl.
  rewrite io_bind_run. unfold lift. by rewrite (storage_needs_datetime lib self H).
Qed.

Lemma save_default_path_needs_upload_time_witness :
  save demo_lib demo_service demo_undated None demo_world = (Raise AttributeError, demo_world).
Proof.
  refine (proj1 (save_default_path_needs_upload_time demo_lib demo_service demo_undated
                   demo_world _)).
  intros d. vm_compute. discriminate.
Defined.



(** X12.  When a regular file stands where [save] needs a directory (the
    parent of the destination, or one of its ancestors), the [mkdir] raises
    [OSError] and [save] stops there: no file is written, nothing is asked
    for. *)
Theorem save_blocked_by_file lib api (self : drop) path w p n :
  destination lib self path = Ok p ->
  (1 <= n <= List.length (parent (Path_absolute (cwd w) p)))%nat ->
  is_Some (files w !! take n (parent (Path_absolute (cwd w) p))) ->
  save lib api self path w = (Raise OSError, w).
Proof.
  intros Hp Hn Hfile. unfold save.
  rewrite io_bind_run. unfold lift at 1. rewrite Hp. cbv beta iota.
  rewrite io_bind_run. unfold getcwd at 1. cbv beta iota zeta.
  rewrite io_bind_run. unfold mkdir_parents at 1.
  replace (existsb _ _) with true; [done|].
  symmetry. apply existsb_exists. exists n. split.
  - apply in_seq. lia.
  - by apply bool_decide_eq_true_2.
Qed.

Lemma save_blocked_by_file_witness :
  save demo_lib demo_service demo_drop (Some "2021/5/3/7--a--image--my photo.png/again.png")
    demo_saved = (Raise OSError, demo_saved).
Proof.
  refine (save_blocked_by_file demo_lib demo_service demo_drop
            (Some "2021/5/3/7--a--image--my photo.png/again.png") demo_saved
            "2021/5/3/7--a--image--my photo.png/again.png" 6 eq_refl _ _).
  - vm_compute. split; apply le_n || (repeat constructor).
  - apply (bool_decide_unpack _). vm_compute. exact I.
Defined.

(** ** What [save] asks the service for *)

Lemma silent_bind {A B} (m : io A) (k : A -> io B) :
  silent m -> (forall a, silent (k a)) -> silent (m ≫= k).
Proof.
  intros Hm Hk w. rewrite io_bind_run. specialize (Hm w).
  destruct (m w) as [[a|e] w1]; simpl in *; [|done]. by rewrite Hk.
Qed.

Lemma silent_lift {A} (r : exc A) : silent (lift r).
Proof. done. Qed.

Lemma silent_ret {A} (a : A) : silent (mret a).
Proof. done. Qed.

Lemma silent_store p data : silent (store p data).
Proof. intros w. unfold store. by destruct (names_dir w p). Qed.

Lemma silent_getcwd : silent getcwd.
Proof. done. Qed.

Lemma silent_mkdir p : silent (mkdir_parents p).
Proof. intros w. unfold mkdir_parents. by destruct (existsb _ _). Qed.

Lemma silent_utime p a m : silent (utime p a m).
Proof.
  intros w. unfold utime. destruct (files w !! p); [done|]. by destruct (names_dir w p).
Qed.

Lemma silent_needs_content lib self target : silent (needs_content lib self target).
Proof. intros w. by rewrite needs_content_run. Qed.

Lemma silent_asks {A} P (m : io A) : silent m -> asks P m.
Proof. intros H w. by left. Qed.

Lemma asks_bind_l {A B} P (m : io A) (k : A -> io B) :
  silent m -> (forall a, asks P (k a)) -> asks P (m ≫= k).
Proof.
  intros Hm Hk w. rewrite io_bind_run. specialize (Hm w).
  destruct (m w) as [[a|e] w1]; simpl in *; [|by left]. rewrite <- Hm. apply Hk.
Qed.

Lemma asks_bind_r {A B} P (m : io A) (k : A -> io B) :
  asks P m -> (forall a, silent (k a)) -> asks P (m ≫= k).
Proof.
  intros Hm Hk w. rewrite io_bind_run. specialize (Hm w).
  destruct (m w) as [[a|e] w1]; cbn [snd] in *; [|exact Hm].
  destruct Hm as [Hm|(u & Hu & Hm)]; [left|right; exists u; split; [done|]];
    by rewrite Hk.
Qed.

Lemma asks_bind_lift {A B} P (r : exc A) (k : A -> io B) :
  (forall a, r = Ok a -> asks P (k a)) -> asks P (lift r ≫= k).
Proof.
  intros Hk w. rewrite io_bind_run. unfold lift.
  destruct r as [a|e]; [by apply Hk|by left].
Qed.

Lemma fetch_content_asks lib api self target :
  asks (fun u => getattr self "content" = Ok u) (fetch_content lib api self target).
Proof.
  unfold fetch_content.
  apply asks_bind_l; [apply silent_store|]. intros _.
  apply asks_bind_lift. intros uri Huri.
  apply asks_bind_r; [|intros; apply silent_store].
  intros w. unfold download. destruct uri; try (by left).
  destruct (is_url lib s); [right|by left]. exists (VStr s). by split.
Qed.

Lemma save_asks lib api (self : drop) path :
  asks (fun u => getattr self "content" = Ok u /\
                 getattr self "type" <> Ok (VStr "bookmark"))
    (save lib api self path).
Proof.
  unfold save.
  apply asks_bind_l; [apply silent_lift|]. intros p.
  apply asks_bind_l; [apply silent_getcwd|]. intros here. cbv zeta.
  apply asks_bind_l; [apply silent_mkdir|]. intros _.
  apply asks_bind_l; [apply silent_lift|]. intros info.
  apply asks_bind_l; [apply silent_store|]. intros _.
  apply asks_bind_l; [apply silent_lift|]. intros data.
  apply asks_bind_l; [apply silent_store|]. intros _.
  apply asks_bind_lift. intros type Htype.
  apply asks_bind_r.
  - destruct (eq_str type "bookmark") eqn:Hbook.
    + apply silent_asks.
      repeat (apply silent_bind; [first [apply silent_lift|apply silent_store]|intros]).
      apply silent_ret.
    + apply asks_bind_l; [apply silent_needs_content|]. intros again.
      apply asks_bind_r; [|intros; apply silent_ret]. destruct again.
      * intros w1. destruct (fetch_content_asks lib api self (Path_absolute here p) w1)
          as [H|(u & Hu & H)]; [by left|right].
        exists u. repeat split; [done| |done].
        intros E. rewrite E in Htype. injection Htype as <-. done.
      * apply silent_asks, silent_ret.
  - intros target.
    repeat (apply silent_bind; [apply silent_lift|intros]). apply silent_utime.
Qed.

(** X13.  Whatever the drop, the destination and the files already there,
    and whether [save] returns or raises, it asks the service for at most
    one thing: the drop's own [content] link, and only for a drop whose type
    is not [bookmark]. *)
Theorem save_asks_for_content_only lib api (self : drop) path w :
  downloads (snd (save lib api self path w)) = downloads w \/
  exists uri, getattr self "content" = Ok uri /\
              getattr self "type" <> Ok (VStr "bookmark") /\
              downloads (snd (save lib api self path w)) = uri :: downloads w.
Proof.
  destruct (save_asks lib api self path w) as [?|(u & [? ?] & ?)]; [by left|right].
  by exists u.
Qed.

(** ** The export loop *)

Lemma main_loop_app lib api ys zs w :
  main_loop lib api (ys ++ zs) w =
  match main_loop lib api ys w with
  | (Ok _, w1) => main_loop lib api zs w1
  | (Raise e, w1) => (Raise e, w1)
  end.
Proof.
  revert w. induction ys as [|y ys IH]; intros w; [done|].
  cbn [main_loop app]. rewrite !io_bind_run.
  destruct (main_step lib api y w) as [[[]|e] w1]; [apply IH|done].
Qed.

Lemma main_step_asks lib api y :
  asks (fun u => exists d, y = YDrop d /\ getattr d "content" = Ok u /\
                           getattr d "type" <> Ok (VStr "bookmark"))
    (main_step lib api y).
Proof.
  destruct y as [d|record].
  - unfold main_step.
    do 7 (apply asks_bind_l; [apply silent_lift|intros ?]).
    intros w. destruct (save_asks lib api d None w) as [H|(u & [? ?] & H)]; [by left|right].
    exists u. split; [by exists d|done].
  - apply silent_asks. destruct record; try apply silent_lift.
    unfold main_step.
    apply silent_bind; [apply silent_lift|]. intros name.
    apply silent_bind; [apply silent_getcwd|]. intros here w.
    unfold write_text. by destruct (_ && _).
Qed.

Lemma main_loop_asks lib api ys : forall w,
  exists us, downloads (snd (main_loop lib api ys w)) = us ++ downloads w /\
             (List.length us <= List.length (drops ys))%nat /\
             Forall (fun u => exists d, In (YDrop d) ys /\ getattr d "content" = Ok u /\
                                        getattr d "type" <> Ok (VStr "bookmark")) us.
Proof.
  induction ys as [|y ys IH]; intros w.
  - exists []. repeat split; [done|constructor].
  - cbn [main_loop]. rewrite io_bind_run.
    pose proof (main_step_asks lib api y w) as Hy.
    destruct (main_step lib api y w) as [[[]|e] w1]; cbn [snd] in *.
    + destruct (IH w1) as (us & Hus & Hlen & Hall).
      assert (Hall' : Forall (fun u => exists d, In (YDrop d) (y :: ys) /\
                         getattr d "content" = Ok u /\
                         getattr d "type" <> Ok (VStr "bookmark")) us).
      { eapply Forall_impl; [exact Hall|]. intros u (d & ? & ?). exists d. split; [by right|done]. }
      destruct Hy as [Hy|(u & (d & -> & Hu) & Hy)].
      * exists us. rewrite Hus, Hy. repeat split; [|done].
        destruct y; simpl; lia.
      * exists (us ++ [u]). rewrite Hus, Hy, <- app_assoc. repeat split.
        -- rewrite length_app. simpl. lia.
        -- apply Forall_app. split; [done|]. constructor; [|constructor].
           exists d. split; [by left|done].
    + destruct Hy as [Hy|(u & (d & -> & Hu) & Hy)].
      * exists []. repeat split; [done|simpl; lia|constructor].
      * exists [u]. repeat split; [done|simpl; lia|].
        constructor; [|constructor]. exists d. split; [by left|done].
Qed.

(** X14.  Whatever the service answers and whatever is on the machine, and
    whether the export ends or raises, every request for content it makes
    is for the [content] link of a drop that the enumeration yielded and
    whose type is not [bookmark], at most one per yielded drop: a record
    whose details could not be retrieved is written down without any
    request. *)
Theorem export_asks_for_content_only lib api fuel w :
  exists us,
    downloads (snd (main lib api fuel w)) = us ++ downloads w /\
    (List.length us <= List.length (drops (fst (client_iter fuel api))))%nat /\
    Forall (fun u => exists d, In (YDrop d) (fst (client_iter fuel api)) /\
                               getattr d "content" = Ok u /\
                               getattr d "type" <> Ok (VStr "bookmark")) us.
Proof.
  unfold main. destruct (client_iter fuel api) as [ys e]. cbn [fst].
  rewrite io_bind_run.
  destruct (main_loop_asks lib api ys w) as (us & Hus & Hrest).
  exists us. split; [|done]. rewrite <- Hus.
  destruct (main_loop lib api ys w) as [[[]|e'] w1]; [|done]. by destruct e.
Qed.

Lemma split_slash_plain s :
  (forall c, In c (list_ascii_of_string s) -> c <> "/"%char) -> split_slash s = [s].
Proof.
  induction s as [|c s IH]; intros H; [done|]. simpl.
  destruct (Ascii.eqb_spec c "/") as [->|_]; [by destruct (H "/"%char); [left|]|].
  rewrite IH; [done|]. intros c' Hc'. apply H. by right.
Qed.

Lemma is_dir_cwd w : is_dir w (cwd w) = true.
Proof. unfold is_dir. by rewrite bool_decide_eq_true_2. Qed.

Lemma broken_name_Ok lib fields item_type id nm :
  dict_get fields "item_type" = Some item_type ->
  dict_get fields "id" = Some id ->
  dict_get fields "name" = Some nm ->
  broken_name lib (VDict fields) =
  Ok (String.concat ""
        ["broken--"; str lib item_type; "--"; str lib id; "--"; str lib nm; ".info.json"]).
Proof. intros H1 H2 H3. unfold broken_name. simpl py_getitem. by rewrite H1, H2, H3. Qed.

(** X15.  A record whose details could not be retrieved and that carries
    [item_type], [id] and [name] is written, serialised as it came in the
    listing, to [broken--<item_type>--<id>--<name>.info.json] in the working
    directory (when that name holds no slash and names no directory), and
    the export goes on with what follows. *)
Theorem export_writes_broken_record lib api fields item_type id nm fname ys w :
  dict_get fields "item_type" = Some item_type ->
  dict_get fields "id" = Some id ->
  dict_get fields "name" = Some nm ->
  fname = String.concat ""
            ["broken--"; str lib item_type; "--"; str lib id; "--"; str lib nm; ".info.json"] ->
  (forall c, In c (list_ascii_of_string fname) -> c <> "/"%char) ->
  is_dir w (cwd w ++ [fname]) = false ->
  main_loop lib api (YRecord (VDict fields) :: ys) w =
  main_loop lib api ys (put (cwd w ++ [fname]) (dumps lib (VDict fields)) w).
Proof.
  intros Htype Hid Hname Hf Hplain Hdir.
  cbn [main_loop]. rewrite io_bind_run. unfold main_step.
  rewrite io_bind_run. unfold lift at 1.
  rewrite (broken_name_Ok lib _ _ _ _ Htype Hid Hname), <- Hf. cbv beta iota.
  rewrite io_bind_run. unfold getcwd at 1. cbv beta iota.
  assert (Hp : Path_absolute (cwd w) fname = cwd w ++ [fname]).
  { unfold Path_absolute. rewrite (split_slash_plain _ Hplain).
    assert (Hb : exists t, fname = String "b" t) by (rewrite Hf; simpl; eauto).
    destruct Hb as [t ->]. reflexivity. }
  rewrite Hp. unfold write_text, parent. rewrite removelast_last, is_dir_cwd, Hdir.
  reflexivity.
Qed.

Lemma no_slash s :
  forallb (fun c => negb (Ascii.eqb c "/")) (list_ascii_of_string s) = true ->
  forall c, In c (list_ascii_of_string s) -> c <> "/"%char.
Proof.
  intros H c Hc ->. apply (proj1 (forallb_forall _ _) H) in Hc. discriminate.
Qed.

Lemma export_writes_broken_record_witness :
  main_loop demo_lib demo_service [YRecord (demo_record "bad")] demo_world =
  (Ok (), put ["home"; "me"; "broken--image--7--photo.png.info.json"]
              (dumps demo_lib (demo_record "bad")) demo_world).
Proof.
  refine (export_writes_broken_record demo_lib demo_service
            [("id", VInt 7); ("slug", VStr "bad"); ("item_type", VStr "image");
             ("name", VStr "photo.png"); ("content_length", VInt 5)] (VStr "image") (VInt 7)
            (VStr "photo.png") "broken--image--7--photo.png.info.json" [] demo_world
            eq_refl eq_refl eq_refl eq_refl _ _).
  - apply no_slash. reflexivity.
  - reflexivity.
Defined.

(** X16.  A drop whose [uploaded] is not a datetime stops the export where
    it stands: the line that shows the drop raises before [save] is called,
    so the machine stays as the drops before left it and nothing that
    follows is exported. *)
Theorem export_halts_at_undated_drop lib api before d after w w1 :
  main_loop lib api before w = (Ok (), w1) ->
  (forall dt, getattr d "uploaded" <> Ok (VDatetime dt)) ->
  exists e, (e = AttributeError \/ e = TypeError) /\
            main_loop lib api (before ++ YDrop d :: after) w = (Raise e, w1).
Proof.
  intros Hbefore Hup. rewrite main_loop_app, Hbefore.
  cbn [main_loop]. rewrite io_bind_run. unfold main_step.
  rewrite io_bind_run. unfold lift at 1.
  destruct (getattr d "type") as [type|e] eqn:Htype; cbv beta iota;
    [|rewrite (getattr_raises _ _ _ Htype); eauto].
  rewrite io_bind_run. unfold lift at 1.
  destruct (format_width type) as [[]|e] eqn:Hfmt; cbv beta iota.
  2:{ exists e. split; [|done]. destruct type; simpl in Hfmt; try done; injection Hfmt; auto. }
  rewrite io_bind_run. unfold lift at 1.
  destruct (getattr d "uploaded") as [v|e] eqn:E; cbv beta iota;
    [|rewrite (getattr_raises _ _ _ E); eauto].
  rewrite io_bind_run. unfold lift at 1.
  destruct v; cbv beta iota; eauto. by destruct (Hup d0).
Qed.

Lemma export_halts_at_undated_drop_witness :
  exists e, (e = AttributeError \/ e = TypeError) /\
            main_loop demo_lib demo_service [YDrop demo_undated; YDrop demo_drop] demo_world
              = (Raise e, demo_world).
Proof.
  refine (export_halts_at_undated_drop demo_lib demo_service [] demo_undated [YDrop demo_drop]
            demo_world demo_world eq_refl _).
  intros dt. vm_compute. discriminate.
Defined.

(** X17.  A record whose details could not be retrieved and that lacks
    [item_type], [id] or [name] stops the export with a [KeyError] when its
    file name is formatted: nothing is written for it, and nothing that
    follows is exported. *)
Theorem export_halts_at_record_without_name lib api before fields after w w1 :
  main_loop lib api before w = (Ok (), w1) ->
  dict_get fields "item_type" = None \/ dict_get fields "id" = None \/
    dict_get fields "name" = None ->
  exists key,
    main_loop lib api (before ++ YRecord (VDict fields) :: after) w = (Raise (KeyError key), w1).
Proof.
  intros Hbefore Hmiss. rewrite main_loop_app, Hbefore.
  cbn [main_loop]. rewrite io_bind_run. unfold main_step.
  rewrite io_bind_run. unfold lift at 1, broken_name. simpl py_getitem.
  destruct (dict_get fields "item_type"); [|simpl; eauto].
  destruct (dict_get fields "id"); [|simpl; eauto].
  destruct (dict_get fields "name"); [|simpl; eauto].
  by destruct Hmiss as [|[|]].
Qed.

Lemma export_halts_at_record_without_name_witness :
  exists key,
    main_loop demo_lib demo_service
      [YRecord (VDict [("slug", VStr "bad")]); YDrop demo_drop] demo_world
      = (Raise (KeyError key), demo_world).
Proof.
  refine (export_halts_at_record_without_name demo_lib demo_service []
            [("slug", VStr "bad")] [YDrop demo_drop] demo_world demo_world eq_refl _).
  by left.
Defined.

(** X18.  When the first page of the listing has no link to a next page,
    the export returns normally and has written nothing and asked for
    nothing: the records of that page are not exported. *)
Theorem export_of_single_page_is_empty lib api fuel link w :
  next_href (json (call api "/v3/items")) = Ok link -> truthy link = false ->
  main lib api (S fuel) w = (Ok true, w).
Proof.
  intros Hnext Hfalse. unfold main, client_iter, Drop_class_getitem.
  by rewrite (pages_without_next _ _ _ _ _ Hnext Hfalse).
Qed.

Lemma export_of_single_page_is_empty_witness :
  main demo_lib (demo_api [["a"; "b"]]) 5 demo_world = (Ok true, demo_world).
Proof.
  refine (export_of_single_page_is_empty demo_lib (demo_api [["a"; "b"]]) 4 VNone demo_world
            _ eq_refl).
  vm_compute. reflexivity.
Defined.

(** ** Where [save] stores a drop by default *)

Lemma split_slash_app_slash a b :
  (forall c, In c (list_ascii_of_string a) -> c <> "/"%char) ->
  split_slash (a ++ String "/" b) = a :: split_slash b.
Proof.
  induction a as [|c a IH]; intros H; [done|].
  change (String c a ++ String "/" b)%string with (String c (a ++ String "/" b)).
  cbn [split_slash].
  destruct (Ascii.eqb_spec c "/") as [->|_]; [by destruct (H "/"%char); [left|]|].
  rewrite IH; [done|]. intros c' Hc'. apply H. by right.
Qed.

(** X19.  Without a destination given, [save] stores a drop below the
    working directory in [<year>/<month>/<day>/] of its upload date, under
    the name [<id>--<slug>--<type>--<original>], provided none of these
    parts holds a slash (and the date parts are not empty or a dot). *)
Theorem default_destination_layout lib (self : drop) d id slug type original ys ms ds nm here :
  getattr self "uploaded" = Ok (VDatetime d) ->
  getattr self "id" = Ok id -> getattr self "slug" = Ok slug ->
  getattr self "type" = Ok type -> getattr self "original" = Ok original ->
  ys = str lib (VInt (year d)) -> ms = str lib (VInt (month d)) ->
  ds = str lib (VInt (day d)) ->
  nm = String.concat ""
         [str lib id; "--"; str lib slug; "--"; str lib type; "--"; str lib original] ->
  Forall (fun part => part <> "" /\ part <> "." /\
                      forall c, In c (list_ascii_of_string part) -> c <> "/"%char)
         [ys; ms; ds; nm] ->
  exists p, destination lib self None = Ok p /\
            Path_absolute here p = here ++ [ys; ms; ds; nm].
Proof.
  intros Hup Hid Hslug Htype Horig Hys Hms Hds Hnm Hparts.
  apply Forall_cons in Hparts as [(Hy0 & Hy1 & Hy) Hparts].
  apply Forall_cons in Hparts as [(Hm0 & Hm1 & Hm) Hparts].
  apply Forall_cons in Hparts as [(Hd0 & Hd1 & Hd) Hparts].
  apply Forall_cons in Hparts as [(Hn0 & Hn1 & Hn) _].
  exists (ys ++ String "/" (ms ++ String "/" (ds ++ String "/" nm)))%string. split.
  - unfold destination, _storage. rewrite Hup, Hid, Hslug, Htype, Horig. simpl.
    by rewrite Hys, Hms, Hds, Hnm.
  - unfold Path_absolute.
    rewrite !split_slash_app_slash, (split_slash_plain nm) by done.
    cbn [List.filter].
    destruct (String.eqb_spec ys ""); [done|]. destruct (String.eqb_spec ys "."); [done|].
    destruct (String.eqb_spec ms ""); [done|]. destruct (String.eqb_spec ms "."); [done|].
    destruct (String.eqb_spec ds ""); [done|]. destruct (String.eqb_spec ds "."); [done|].
    destruct (String.eqb_spec nm ""); [done|]. destruct (String.eqb_spec nm "."); [done|].
    cbn [negb andb].
    destruct ys as [|c ys']; [done|].
    change (String c ys' ++ ?x)%string with (String c (ys' ++ x)).
    destruct (Ascii.eqb_spec c "/") as [->|Hc]; [by destruct (Hy "/"%char); [left|]|].
    destruct c as [[] [] [] [] [] [] [] []]; try reflexivity. by destruct Hc.
Qed.

Lemma default_destination_layout_witness :
  exists p, destination demo_lib demo_drop None = Ok p /\
            Path_absolute ["home"; "me"] p = demo_target.
Proof.
  refine (default_destination_layout demo_lib demo_drop (mk_datetime 2021 5 3 10 15 0)
            (VInt 7) (VStr "a") (VStr "image") (VStr "my photo.png")
            "2021" "5" "3" "7--a--image--my photo.png" ["home"; "me"]
            eq_refl eq_refl eq_refl eq_refl eq_refl eq_refl eq_refl eq_refl eq_refl _).
  repeat (constructor; [split; [discriminate|split; [discriminate|apply no_slash; reflexivity]]|]).
  constructor.
Defined.
